(** * github-contribution-write: the grid, the calendar window and the commit
    driver of [main.py], embedded in Rocq.

    The program renders a printable-ASCII message with a fixed 7-row bitmap
    font, lays the resulting grid over consecutive calendar days starting on a
    Sunday, and creates backdated empty commits on the days whose cell is on.

    Layout of this file:
    - [Py]: the few Python built-ins the program relies on (indexing with
      negative wrap-around, [str.split], [str.strip], [str.join], number
      formatting);
    - the font table, as the source writes it, and [get_font];
    - [Datetime]: the part of [datetime] the program uses, with the date kept
      as its proleptic Gregorian ordinal;
    - the program: [progress], the checks, the grid builder, the calendar
      window and [main], written in a small monad that threads the random
      generator and records output and external commands;
    - the definitions the statements need and the inputs of the examples;
    - lemmas about the built-ins, the font, the grid builder, the monad and
      the loop over the days;
    - the claims C1 to C10;
    - further properties of the program, X1 to X16. *)

From Stdlib Require Import ZArith List String Ascii Bool Lia QArith Qround.
From Stdlib Require Import DecimalString HexadecimalString Finite Sorted.
Import ListNotations.

Close Scope Q_scope.
Open Scope list_scope.
Open Scope string_scope.
Open Scope Z_scope.

(** ** Exceptions and results *)

(** The exceptions that the modelled code can raise.  [sys.exit(n)] raises
    [SystemExit n]. *)
Inductive exn : Type :=
| SystemExit (code : Z)
| IndexError
| OverflowError
| ValueError
| NameError.

Inductive result (A : Type) : Type :=
| Ok (a : A)
| Raise (e : exn).

Arguments Ok {A} a.
Arguments Raise {A} e.

(** [[f(a) for a in l]], stopping at the first exception. *)
Fixpoint rmap {A B : Type} (f : A -> result B) (l : list A) : result (list B) :=
  match l with
  | [] => Ok []
  | a :: l' =>
      match f a with
      | Raise e => Raise e
      | Ok b =>
          match rmap f l' with
          | Raise e => Raise e
          | Ok bs => Ok (b :: bs)
          end
      end
  end.

(** ** Python built-ins *)

Module Py.

(** A Python [str] that comes from the command line is a sequence of Unicode
    code points; [ord] gives the code point. *)
Definition ustr : Type := list Z.

(** [range(n)] *)
Definition range (n : Z) : list Z := map Z.of_nat (seq 0 (Z.to_nat n)).

(** [l[i]] on a list: a negative index counts from the end, anything out of
    range raises [IndexError]. *)
Definition index {A : Type} (l : list A) (i : Z) : result A :=
  let n := Z.of_nat (List.length l) in
  let j := if i <? 0 then i + n else i in
  if (j <? 0) || (n <=? j) then Raise IndexError
  else match nth_error l (Z.to_nat j) with
       | Some a => Ok a
       | None => Raise IndexError
       end.

(** [s[i]] on a string. *)
Definition str_index (s : string) (i : Z) : result ascii :=
  index (list_ascii_of_string s) i.

(** [len(s)] *)
Definition len (s : string) : Z := Z.of_nat (String.length s).

(** [str.isspace] on a single character, for the characters below 256. *)
Definition isspace (c : ascii) : bool :=
  let n := nat_of_ascii c in
  ((9 <=? n) && (n <=? 13))%nat || ((28 <=? n) && (n <=? 32))%nat
  || (n =? 133)%nat || (n =? 160)%nat.

Fixpoint lstrip (s : string) : string :=
  match s with
  | EmptyString => EmptyString
  | String c s' => if isspace c then lstrip s' else s
  end.

Fixpoint rev_string (s : string) (acc : string) : string :=
  match s with
  | EmptyString => acc
  | String c s' => rev_string s' (String c acc)
  end.

Definition rstrip (s : string) : string :=
  rev_string (lstrip (rev_string s EmptyString)) EmptyString.

(** [s.strip()] *)
Definition strip (s : string) : string := rstrip (lstrip s).

(** [s.split()]: the maximal runs of non-whitespace characters.  [cur] is the
    run being read, reversed. *)
Fixpoint split_from (s : string) (cur : string) : list string :=
  match s with
  | EmptyString =>
      match cur with
      | EmptyString => []
      | _ => [rev_string cur EmptyString]
      end
  | String c s' =>
      if isspace c then
        match cur with
        | EmptyString => split_from s' EmptyString
        | _ => rev_string cur EmptyString :: split_from s' EmptyString
        end
      else split_from s' (String c cur)
  end.

Definition split (s : string) : list string := split_from s EmptyString.

(** [sep.join(l)] on strings. *)
Fixpoint join (sep : string) (l : list string) : string :=
  match l with
  | [] => EmptyString
  | [s] => s
  | s :: l' => s ++ sep ++ join sep l'
  end.

(** [" ".join(words)] on command-line words. *)
Fixpoint ujoin (sep : ustr) (l : list ustr) : ustr :=
  match l with
  | [] => []
  | [s] => s
  | s :: l' => (s ++ sep ++ ujoin sep l')%list
  end.

(** [str(n)] and [f"{n}"] for an integer. *)
Definition str_of_int (n : Z) : string := DecimalString.NilZero.string_of_int (Z.to_int n).

(** Upper-case hexadecimal digits of a non-negative integer, most significant
    first, as the format type [X] prints them. *)
Fixpoint hex_upper (u : Hexadecimal.uint) : string :=
  match u with
  | Hexadecimal.Nil => EmptyString
  | Hexadecimal.D0 u' => String "0" (hex_upper u')
  | Hexadecimal.D1 u' => String "1" (hex_upper u')
  | Hexadecimal.D2 u' => String "2" (hex_upper u')
  | Hexadecimal.D3 u' => String "3" (hex_upper u')
  | Hexadecimal.D4 u' => String "4" (hex_upper u')
  | Hexadecimal.D5 u' => String "5" (hex_upper u')
  | Hexadecimal.D6 u' => String "6" (hex_upper u')
  | Hexadecimal.D7 u' => String "7" (hex_upper u')
  | Hexadecimal.D8 u' => String "8" (hex_upper u')
  | Hexadecimal.D9 u' => String "9" (hex_upper u')
  | Hexadecimal.Da u' => String "A" (hex_upper u')
  | Hexadecimal.Db u' => String "B" (hex_upper u')
  | Hexadecimal.Dc u' => String "C" (hex_upper u')
  | Hexadecimal.Dd u' => String "D" (hex_upper u')
  | Hexadecimal.De u' => String "E" (hex_upper u')
  | Hexadecimal.Df u' => String "F" (hex_upper u')
  end.

Fixpoint zeros (n : nat) : string :=
  match n with
  | O => EmptyString
  | S n' => String "0" (zeros n')
  end.

(** ["{:02X}".format(n)]: upper-case hexadecimal, padded with zeros, after
    the sign if there is one, to a width of at least two. *)
Definition format_02X (n : Z) : string :=
  let sign := if n <? 0 then "-" else "" in
  let digits := hex_upper (N.to_hex_uint (Z.to_N (Z.abs n))) in
  sign ++ zeros (2 - String.length sign - String.length digits) ++ digits.

End Py.

(** ** The font *)

Definition ASCII_PRINTABLE_FIRST : Z := 32.
Definition ASCII_PRINTABLE_LAST : Z := 126.

(** The literal of [get_font]: one string per printable character, from the
    space to the tilde, written over nine lines. *)
Definition font_literal : list string := [
        "
        ..
        ..
        ..
        ..
        ..
        ..
        ..
        ";
        "
        .
        #
        #
        #
        .
        #
        .
        ";
        "
        ...
        #.#
        #.#
        ...
        ...
        ...
        ...
        ";
        "
        .....
        .#.#.
        #####
        .#.#.
        #####
        .#.#.
        .....
        ";
        "
        ..#..
        .####
        #.#..
        .###.
        ..#.#
        ####.
        ..#..
        ";
        "
        .....
        ##..#
        ##.#.
        ..#..
        .#.##
        #..##
        .....
        ";
        "
        .##..
        #..#.
        .#...
        .##..
        #.#.#
        #..##
        .##.#
        ";
        "
        .
        #
        #
        .
        .
        .
        .
        ";
        "

        .#
        #.
        #.
        #.
        #.
        #.
        .#
        ";
        "

        #.
        .#
        .#
        .#
        .#
        .#
        #.
        ";
        "
        ...
        .#.
        ###
        .#.
        ...
        ...
        ...
        ";
        "
        ...
        ...
        .#.
        ###
        .#.
        ...
        ...
        ";
        "
        .
        .
        .
        .
        .
        #
        #
        ";
        "
        ...
        ...
        ...
        ###
        ...
        ...
        ...
        ";
        "
        .
        .
        .
        .
        .
        #
        .
        ";
        "
        .....
        ....#
        ...#.
        ..#..
        .#...
        #....
        .....
        ";
        "
        ....
        .##.
        #..#
        #..#
        #..#
        .##.
        ....
        ";
        "
        ...
        .#.
        ##.
        .#.
        .#.
        ###
        ...
        ";
        "
        ....
        .##.
        #..#
        ..#.
        #...
        ####
        ....
        ";
        "
        ....
        ###.
        ...#
        .##.
        ...#
        ###.
        ....
        ";
        "
        ....
        ..#.
        .##.
        #.#.
        ####
        ..#.
        ....
        ";
        "
        ....
        ####
        #...
        ###.
        ...#
        ###.
        ....
        ";
        "
        ....
        .##.
        #...
        ###.
        #..#
        .##.
        ....
        ";
        "
        ....
        ####
        ...#
        ..#.
        .#..
        #...
        ....
        ";
        "
        ....
        .##.
        #..#
        .##.
        #..#
        .##.
        ....
        ";
        "
        ....
        .##.
        #..#
        .###
        ...#
        ..#.
        ....
        ";
        "
        .
        .
        #
        .
        #
        .
        .
        ";
        "
        .
        .
        #
        .
        #
        #
        .
        ";
        "
        ...
        ..#
        .#.
        #..
        .#.
        ..#
        ...
        ";
        "
        ...
        ...
        ###
        ...
        ###
        ...
        ...
        ";
        "
        ...
        #..
        .#.
        ..#
        .#.
        #..
        ...
        ";
        "
        ....
        .##.
        ...#
        ..#.
        ....
        ..#.
        ....
        ";
        "
        .....
        .###.
        #.#.#
        #.#.#
        #.###
        .##..
        .....
        ";
        "
        ....
        .##.
        #..#
        ####
        #..#
        #..#
        ....
        ";
        "
        ....
        ###.
        #..#
        ###.
        #..#
        ###.
        ....
        ";
        "
        ....
        .###
        #...
        #...
        #...
        .###
        ....
        ";
        "
        ....
        ##..
        #.#.
        #..#
        #.#.
        ##..
        ....
        ";
        "
        ....
        ####
        #...
        ###.
        #...
        ####
        ....
        ";
        "
        ....
        ####
        #...
        ###.
        #...
        #...
        ....
        ";
        "
        ....
        .###
        #...
        #.##
        #..#
        .###
        ....
        ";
        "
        ....
        #..#
        #..#
        ####
        #..#
        #..#
        ....
        ";
        "
        ...
        ###
        .#.
        .#.
        .#.
        ###
        ...
        ";
        "
        ....
        ...#
        ...#
        ...#
        #..#
        .##.
        ....
        ";
        "
        ....
        #..#
        #.#.
        ##..
        #.#.
        #..#
        ....
        ";
        "
        ....
        #...
        #...
        #...
        #...
        ####
        ....
        ";
        "
        .....
        .#.#.
        #.#.#
        #.#.#
        #...#
        #...#
        .....
        ";
        "
        .....
        #...#
        ##..#
        #.#.#
        #..##
        #...#
        .....
        ";
        "
        ....
        .##.
        #..#
        #..#
        #..#
        .##.
        ....
        ";
        "
        ....
        ###.
        #..#
        ###.
        #...
        #...
        ....
        ";
        "
        ....
        .##.
        #..#
        #..#
        #.##
        .##.
        ...#
        ";
        "
        ....
        ###.
        #..#
        ###.
        #.#.
        #..#
        ....
        ";
        "
        ....
        .###
        #...
        .##.
        ...#
        ###.
        ....
        ";
        "
        ...
        ###
        .#.
        .#.
        .#.
        .#.
        ...
        ";
        "
        ....
        #..#
        #..#
        #..#
        #..#
        .##.
        ....
        ";
        "
        ....
        #..#
        #..#
        #..#
        #.#.
        .#..
        ....
        ";
        "
        .....
        #...#
        #...#
        #.#.#
        #.#.#
        .#.#.
        .....
        ";
        "
        .....
        #...#
        .#.#.
        ..#..
        .#.#.
        #...#
        .....
        ";
        "
        ...
        #.#
        #.#
        .#.
        .#.
        .#.
        ...
        ";
        "
        ....
        ####
        ..#.
        .#..
        #...
        ####
        ....
        ";
        "
        ##
        #.
        #.
        #.
        #.
        #.
        ##
        ";
        "
        .....
        #....
        .#...
        ..#..
        ...#.
        ....#
        .....
        ";
        "
        ##
        .#
        .#
        .#
        .#
        .#
        ##
        ";
        "
        ...
        .#.
        #.#
        ...
        ...
        ...
        ...
        ";
        "
        ...
        ...
        ...
        ...
        ...
        ###
        ...
        ";
        "
        ..
        #.
        .#
        ..
        ..
        ..
        ..
        ";
        "
        ....
        .##.
        ...#
        .###
        #..#
        .###
        ....
        ";
        "
        ....
        #...
        #...
        ###.
        #..#
        ###.
        ....
        ";
        "
        ...
        ...
        ...
        .##
        #..
        .##
        ...
        ";
        "
        ....
        ...#
        ...#
        .###
        #..#
        .###
        ....
        ";
        "
        ....
        ....
        .##.
        ####
        #...
        .###
        ....
        ";
        "
        ....
        ..##
        .#..
        ###.
        .#..
        .#..
        ....
        ";
        "
        ....
        ....
        .###
        #..#
        .###
        ...#
        .##.
        ";
        "
        ....
        #...
        #...
        ###.
        #..#
        #..#
        ....
        ";
        "
        .
        #
        .
        #
        #
        #
        .
        ";
        "
        ...
        ..#
        ...
        ..#
        ..#
        ..#
        ##.
        ";
        "
        ...
        #..
        #..
        #.#
        ##.
        #.#
        ...
        ";
        "
        .
        #
        #
        #
        #
        #
        .
        ";
        "
        .....
        .....
        .....
        .#.#.
        #.#.#
        #...#
        .....
        ";
        "
        ....
        ....
        ....
        .##.
        #..#
        #..#
        ....
        ";
        "
        ....
        ....
        ....
        .##.
        #..#
        .##.
        ....
        ";
        "
        ....
        ....
        .##.
        #..#
        ###.
        #...
        #...
        ";
        "
        ....
        ....
        .##.
        #..#
        .###
        ...#
        ...#
        ";
        "
        ...
        ...
        ...
        .##
        #..
        #..
        ...
        ";
        "
        ....
        ....
        .###
        #...
        ..##
        ###.
        ....
        ";
        "
        ...
        .#.
        .#.
        ###
        .#.
        .#.
        ...
        ";
        "
        ....
        ....
        ....
        #..#
        #..#
        .##.
        ....
        ";
        "
        ....
        ....
        ....
        #..#
        #.#.
        .#..
        ....
        ";
        "
        .....
        .....
        .....
        #...#
        #.#.#
        .#.#.
        .....
        ";
        "
        ...
        ...
        ...
        #.#
        .#.
        #.#
        ...
        ";
        "
        ...
        ...
        #.#
        .##
        ..#
        .#.
        ...
        ";
        "
        ...
        ...
        ###
        .#.
        #..
        ###
        ...
        ";
        "
        .##
        .#.
        .#.
        #..
        .#.
        .#.
        .##
        ";
        "
        .
        #
        #
        #
        #
        #
        .
        ";
        "
        ##.
        .#.
        .#.
        ..#
        .#.
        .#.
        ##.
        ";
        "
        ......
        ......
        .##..#
        #..##.
        ......
        ......
        ......
            "
].

(** [get_font()]: every entry split at white space, every piece stripped. *)
Definition get_font : list (list string) :=
  map (fun char => map Py.strip (Py.split char)) font_literal.

(** ** Dates and times *)

Module Datetime.

(** A [datetime] value.  The calendar date is kept as its proleptic Gregorian
    ordinal ([date.toordinal()]: 0001-01-01 is day 1), the representation on
    which [weekday] and the arithmetic with [timedelta] are defined; the
    time of day and the time zone (its offset, when the value has one) are
    carried along unchanged by them. *)
Record datetime : Type := mk {
  ordinal : Z;
  hour : Z;
  minute : Z;
  second : Z;
  microsecond : Z;
  tzinfo : option Z
}.

Definition MINYEAR : Z := 1.
Definition MAXYEAR : Z := 9999.

Definition is_leap (year : Z) : bool :=
  (year mod 4 =? 0) && (negb (year mod 100 =? 0) || (year mod 400 =? 0)).

Definition days_before_year (year : Z) : Z :=
  let y := year - 1 in y * 365 + y / 4 - y / 100 + y / 400.

Definition days_before_month (year month : Z) : Z :=
  nth (Z.to_nat month) [0; 0; 31; 59; 90; 120; 151; 181; 212; 243; 273; 304; 334] 0
  + (if (2 <? month) && is_leap year then 1 else 0).

(** The ordinal of a calendar date. *)
Definition ymd2ord (year month day : Z) : Z :=
  days_before_year year + days_before_month year month + day.

(** The ordinal of 9999-12-31, the last date a [datetime] can hold. *)
Definition MAXORDINAL : Z := Eval vm_compute in ymd2ord MAXYEAR 12 31.

(** [datetime(year, month, day, hour, minute, second)], for a date of the
    calendar. *)
Definition of_ymd (year month day h m s : Z) : datetime :=
  mk (ymd2ord year month day) h m s 0 None.

Definition valid (dt : datetime) : Prop :=
  1 <= ordinal dt <= MAXORDINAL
  /\ 0 <= hour dt < 24 /\ 0 <= minute dt < 60 /\ 0 <= second dt < 60
  /\ 0 <= microsecond dt < 1000000.

(** [dt.replace(hour=h, minute=m, second=s, microsecond=us)] *)
Definition replace (dt : datetime) (h m s us : Z) : datetime :=
  mk (ordinal dt) h m s us (tzinfo dt).

(** [dt.weekday()]: Monday is 0 and Sunday is 6. *)
Definition weekday (dt : datetime) : Z := (ordinal dt + 6) mod 7.

Definition SUNDAY : Z := 6.

(** The value [n] days later, at the same time of day. *)
Definition shift (dt : datetime) (n : Z) : datetime :=
  mk (ordinal dt + n) (hour dt) (minute dt) (second dt) (microsecond dt) (tzinfo dt).

(** [dt + timedelta(days=n)]: a result outside 0001-01-01 .. 9999-12-31
    raises [OverflowError] (so does a [timedelta] of more than 999999999
    days, which always leads outside). *)
Definition add_days (dt : datetime) (n : Z) : result datetime :=
  let o := ordinal dt + n in
  if (0 <? o) && (o <=? MAXORDINAL) then Ok (shift dt n) else Raise OverflowError.

(** [dt - timedelta(days=n)] *)
Definition sub_days (dt : datetime) (n : Z) : result datetime :=
  add_days dt (- n).

End Datetime.

Import Datetime.

(** ** Output, external commands and the program monad *)

(** What a run does to the outside, in order.  An event that carries a
    [datetime] stands for the text the program formats from it; for
    [PrintProgress] and [GitCommit] that text is the date and the time of
    day only, without the time zone. *)
Inductive event : Type :=
| PrintUsage                       (* parser.print_usage() *)
| Eprint (s : string)              (* eprint(s): a line on the error stream *)
| PrintStarting (d : datetime)     (* the line Starting on .., with d formatted *)
| PrintEnding (d : datetime)       (* the line Ending on .., with d formatted *)
| Print (s : string)               (* print(s) *)
| Put (s : string)                 (* print(s, end=..): s without a line end *)
| PrintProgress (the_date : datetime) (bar : string)
                                   (* carriage return, the_date formatted, bar *)
| GitCommit (the_date : datetime)  (* git commit --allow-empty --date=the_date
                                      --message the_date, through subprocess.run *)
| Sleep.                           (* sleep(0.002) *)

(** A source of random numbers: [draw n g] is [random.randrange(n)] in the
    generator state [g], with the next state.  For [0 < n] the number drawn
    lies in [0, n). *)
Record RandomSource : Type := {
  rng : Type;
  draw : Z -> rng -> Z * rng;
  draw_range : forall n g, 0 < n -> 0 <= fst (draw n g) < n
}.

Section Program.

Context (R : RandomSource).

(** A computation reads and advances the generator, appends to the trace,
    and either returns or raises. *)
Definition prog (A : Type) : Type := rng R -> list event * result (A * rng R).

Definition ret {A : Type} (a : A) : prog A := fun g => ([], Ok (a, g)).

Definition bind {A B : Type} (c : prog A) (k : A -> prog B) : prog B :=
  fun g =>
    match c g with
    | (out, Ok (a, g')) => let (out', r) := k a g' in ((out ++ out')%list, r)
    | (out, Raise e) => (out, Raise e)
    end.

Definition emit (e : event) : prog unit := fun g => ([e], Ok (tt, g)).

Definition raise {A : Type} (e : exn) : prog A := fun _ => ([], Raise e).

Definition lift {A : Type} (r : result A) : prog A :=
  match r with
  | Ok a => ret a
  | Raise e => raise e
  end.

(** [random.randrange(n)]; [ValueError] on an empty range. *)
Definition randrange (n : Z) : prog Z :=
  fun g => if n <=? 0 then ([], Raise ValueError) else ([], Ok (draw R n g)).

End Program.

Arguments ret {R A} a.
Arguments bind {R A B} c k.
Arguments emit {R} e.
Arguments raise {R A} e.
Arguments lift {R A} r.
Arguments randrange {R} n.

Declare Scope prog_scope.
Delimit Scope prog_scope with prog.
Notation "x <- c ;; k" := (bind c (fun x => k))
  (at level 61, c at next level, right associativity) : prog_scope.
Notation "c ;; k" := (bind c (fun _ => k))
  (at level 61, right associativity) : prog_scope.

Open Scope prog_scope.

(** ** The program *)

(** *** [progress] *)

(** [int(percent)]: truncation towards zero. *)
Definition int_of_Q (percent : Q) : Z := Z.quot (Qnum percent) (Zpos (Qden percent)).

(** [progress(percent)].  The program calls it with an integer or with the
    float [day * 100 / num_days]; the model takes the exact rational, which
    compares with the integers [i * 4] and truncates as the float does for
    every window of fewer than 2^46 days. *)
Definition progress (percent : Q) : string :=
  let bar :=
    fold_left
      (fun bar i =>
         if Qle_bool (inject_Z (i * 4)) percent then bar ++ "=" else bar ++ " ")
      (Py.range 25) "" in
  "[" ++ bar ++ "] " ++ Py.str_of_int (int_of_Q percent) ++ "%".

(** *** Cursor movement *)

Definition ESC : string := String (ascii_of_nat 27) EmptyString.

Section Cursor.

Context {R : RandomSource}.

Definition cursor_up (n : Z) : prog R unit :=
  if 0 <? n then emit (Put (ESC ++ "[" ++ Py.str_of_int n ++ "A")) else ret tt.

Definition cursor_down (n : Z) : prog R unit :=
  if 0 <? n then emit (Put (ESC ++ "[" ++ Py.str_of_int n ++ "B")) else ret tt.

Definition cursor_right (n : Z) : prog R unit :=
  if 0 <? n then emit (Put (ESC ++ "[" ++ Py.str_of_int n ++ "C")) else ret tt.

End Cursor.

(** *** Validation of the message *)

(** The loop over the message that collects the characters outside the
    printable range, each formatted as [0x] and two hexadecimal digits. *)
Fixpoint invalid_chars (message : Py.ustr) : list string :=
  match message with
  | [] => []
  | digit :: rest =>
      if (digit <? ASCII_PRINTABLE_FIRST) || (ASCII_PRINTABLE_LAST <? digit)
      then ("0x" ++ Py.format_02X digit) :: invalid_chars rest
      else invalid_chars rest
  end.

(** *** The grid *)

(** The inner loop of the grid builder: every character of the message adds
    the row [row] of its glyph and one separator to [row_text]. *)
Fixpoint add_glyphs (font : list (list string)) (row : Z) (message : Py.ustr)
    (row_text : string) : result string :=
  match message with
  | [] => Ok row_text
  | char :: rest =>
      let digit := char - ASCII_PRINTABLE_FIRST in
      match Py.index font digit with
      | Raise e => Raise e
      | Ok font_letter =>
          match Py.index font_letter row with
          | Raise e => Raise e
          | Ok piece => add_glyphs font row rest (row_text ++ (piece ++ "."))
          end
      end
  end.

(** ["#" if c == "." else "."] over a whole row. *)
Fixpoint invert_text (row_text : string) : string :=
  match row_text with
  | EmptyString => EmptyString
  | String c s => String (if Ascii.eqb c "." then "#" else ".")%char (invert_text s)
  end.

Definition build_row (font : list (list string)) (message : Py.ustr)
    (invert : bool) (row : Z) : result string :=
  match add_glyphs font row message "." with
  | Raise e => Raise e
  | Ok row_text => Ok (if invert then invert_text row_text else row_text)
  end.

(** The grid: one text per row 0..6. *)
Definition build_grid (font : list (list string)) (message : Py.ustr)
    (invert : bool) : result (list string) :=
  rmap (build_row font message invert) (Py.range 7).

(** [len(grid) * len(grid[0])] *)
Definition num_days_of (grid : list string) : result Z :=
  match Py.index grid 0 with
  | Raise e => Raise e
  | Ok row0 => Ok (Z.of_nat (List.length grid) * Py.len row0)
  end.

(** *** The calendar window *)

(** The first day of the window: the start at noon, moved back to a Sunday. *)
Definition window_beginning (start : datetime) : result datetime :=
  let beginning := replace start 12 0 0 0 in
  sub_days beginning ((weekday beginning + 1) mod 7).

(** The grid coordinates of a day: [y = day % 7], [x = day // 7]. *)
Definition coords (day : Z) : Z * Z := (day mod 7, day / 7).

(** The cell of a day, as the loop reads it: [grid[y][x]]. *)
Definition cell (grid : list string) (day : Z) : result ascii :=
  let (y, x) := coords day in
  match Py.index grid y with
  | Raise e => Raise e
  | Ok row => Py.str_index row x
  end.

(** [day * 100 / num_days], as the exact quotient.  The program computes it
    as a float; the two give the same text of [progress] for every window
    that fits the calendar (they part only from about 2^46 days on). *)
Definition percent_of (day num_days : Z) : Q := inject_Z (day * 100) / inject_Z num_days.

(** *** The command line *)

(** The parsed command line.  [start] is what [datetime.fromisoformat] makes
    of the [--start] text, [None] when it rejects it; [message_words] are the
    positional arguments, at least one. *)
Record args : Type := {
  min_commits : Z;
  max_commits : Z;
  dry_run : bool;
  invert : bool;
  preview : bool;
  start : option datetime;
  message_words : list Py.ustr
}.

(** [" ".join(args.message)] *)
Definition message_of (a : args) : Py.ustr := Py.ujoin [32] (message_words a).

Section Main.

Context {R : RandomSource}.

Definition when (b : bool) (c : prog R unit) : prog R unit :=
  if b then c else ret tt.

(** [for _ in range(n): c] *)
Fixpoint repeat_prog (n : nat) (c : prog R unit) : prog R unit :=
  match n with
  | O => ret tt
  | S n' => c ;; repeat_prog n' c
  end.

(** [parser.print_usage(); eprint(msg); sys.exit(1)] *)
Definition usage_error (msg : string) : prog R unit :=
  emit PrintUsage ;; emit (Eprint msg) ;; raise (SystemExit 1).

(** The body of the loop over the days; it returns [the_date]. *)
Definition day_body (a : args) (grid : list string) (beginning : datetime)
    (num_days : Z) (day : Z) : prog R datetime :=
  let (y, x) := coords day in
  row <- lift (Py.index grid y) ;;
  char <- lift (Py.str_index row x) ;;
  the_date <- lift (add_days beginning day) ;;
  emit (PrintProgress the_date (progress (percent_of day num_days))) ;;
  if Ascii.eqb char "."
  then ret the_date
  else
    (if negb (dry_run a)
     then
       let commits_diff := max_commits a - min_commits a + 1 in
       r <- randrange commits_diff ;;
       let num_commits := min_commits a + r in
       repeat_prog (Z.to_nat num_commits) (emit (GitCommit the_date))
     else emit Sleep) ;;
    when (preview a)
      (emit (Put (String (ascii_of_nat 13) EmptyString)) ;;
       cursor_up (7 - y) ;;
       cursor_right x ;;
       emit (Put (String char EmptyString)) ;;
       cursor_down (7 - y)) ;;
    ret the_date.

(** The loop over the days; [the_date] is the variable that the last
    iteration leaves behind. *)
Fixpoint for_days (body : Z -> prog R datetime) (days : list Z)
    (the_date : option datetime) : prog R (option datetime) :=
  match days with
  | [] => ret the_date
  | day :: rest => d <- body day ;; for_days body rest (Some d)
  end.

Definition main (a : args) : prog R unit :=
  let message := message_of a in
  when (Z.of_nat (List.length message) =? 0)
    (usage_error "Empty message is invalid") ;;
  when (min_commits a <? 0)
    (usage_error "MIN_COMMITS must be at least 0") ;;
  when (max_commits a <? 1)
    (usage_error "MAX_COMMITS must be at least 1") ;;
  when (max_commits a <? min_commits a)
    (usage_error ("MIN_COMMITS (" ++ Py.str_of_int (min_commits a)
                  ++ ") cannot be more than MAX_COMMITS ("
                  ++ Py.str_of_int (max_commits a) ++ ")")) ;;
  let invalid := invalid_chars message in
  when (0 <? Z.of_nat (List.length invalid))
    (usage_error ("Unsupported characters in message: " ++ Py.join " " invalid)) ;;
  let font := get_font in
  grid <- lift (build_grid font message (invert a)) ;;
  num_days <- lift (num_days_of grid) ;;
  start <- lift (match start a with Some d => Ok d | None => Raise ValueError end) ;;
  beginning <- lift (window_beginning start) ;;
  ending <- lift (add_days beginning (num_days - 1)) ;;
  emit (PrintStarting beginning) ;;
  emit (PrintEnding ending) ;;
  when (preview a) (repeat_prog (List.length grid) (emit (Print ""))) ;;
  the_date <- for_days (day_body a grid beginning num_days) (Py.range num_days) None ;;
  match the_date with
  | None => raise NameError
  | Some d => emit (PrintProgress d (progress (inject_Z 100)))
  end.

End Main.

(** The result of running [main]: the trace and how the run ended. *)
Definition run (R : RandomSource) (a : args) (g : rng R)
  : list event * result (unit * rng R) := main a g.

(** The exit status of the process: 0 at the end of [main], the code given
    to [sys.exit], 1 for any other exception. *)
Definition exit_status {A : Type} (r : result A) : Z :=
  match r with
  | Ok _ => 0
  | Raise (SystemExit code) => code
  | Raise _ => 1
  end.

(** The dates of the commits created, in order. *)
Fixpoint commit_dates (out : list event) : list datetime :=
  match out with
  | [] => []
  | GitCommit d :: out' => d :: commit_dates out'
  | _ :: out' => commit_dates out'
  end.

(** ** Specification-side definitions *)

(** A character of the printable ASCII range. *)
Definition printable (c : Z) : Prop :=
  ASCII_PRINTABLE_FIRST <= c <= ASCII_PRINTABLE_LAST.

Definition printableb (c : Z) : bool :=
  (ASCII_PRINTABLE_FIRST <=? c) && (c <=? ASCII_PRINTABLE_LAST).

(** The number of columns of the glyph of a character: the length of the
    first row of its entry in the font. *)
Definition glyph_columns (font : list (list string)) (char : Z) : Z :=
  match Py.index font (char - ASCII_PRINTABLE_FIRST) with
  | Ok (row0 :: _) => Py.len row0
  | _ => 0
  end.

(** The sum of the glyph column counts over a message. *)
Fixpoint sum_columns (font : list (list string)) (message : Py.ustr) : Z :=
  match message with
  | [] => 0
  | char :: rest => glyph_columns font char + sum_columns font rest
  end.

(** A font entry as the grid builder needs it: seven rows of one length. *)
Definition glyph_ok (glyph : list string) : bool :=
  match glyph with
  | [] => false
  | row0 :: _ =>
      (List.length glyph =? 7)%nat
      && forallb (fun row => (String.length row =? String.length row0)%nat) glyph
  end.

(** The trace of a computation and how it ends. *)
Definition trace {R : RandomSource} {A : Type} (c : prog R A) (g : rng R)
  : list event := fst (c g).

Definition outcome {R : RandomSource} {A : Type} (c : prog R A) (g : rng R)
  : result (A * rng R) := snd (c g).

(** A computation that returns, leaves the generator alone and creates no
    commit. *)
Definition quiet (R : RandomSource) (c : prog R unit) : Prop :=
  forall g, outcome c g = Ok (tt, g) /\ commit_dates (trace c g) = [].

(** The commit-count bounds pass their checks. *)
Definition bounds_ok (a : args) : Prop :=
  0 <= min_commits a /\ 1 <= max_commits a /\ min_commits a <= max_commits a.

(** How a run that fails a check ends. *)
Definition rejected {A : Type} (msg : string) : list event * result A :=
  ([PrintUsage; Eprint msg], Raise (SystemExit 1)).

(** The cell of a day is on. *)
Definition is_on (grid : list string) (day : Z) : bool :=
  match cell grid day with
  | Ok c => negb (Ascii.eqb c ".")
  | Raise _ => false
  end.

(** The width of the grid of a message. *)
Definition grid_width (message : Py.ustr) : Z :=
  sum_columns get_font message + Z.of_nat (List.length message) + 1.

(** The dates of the days that are on, in order: a function of the message,
    the inversion flag and the start date.  It is empty when the window does
    not fit the calendar, in which case the program stops before the loop. *)
Definition on_days (message : Py.ustr) (inv : bool) (start : datetime)
  : list datetime :=
  match build_grid get_font message inv with
  | Raise _ => []
  | Ok grid =>
      match num_days_of grid, window_beginning start with
      | Ok num_days, Ok beginning =>
          match add_days beginning (num_days - 1) with
          | Ok _ => map (shift beginning) (filter (is_on grid) (Py.range num_days))
          | Raise _ => []
          end
      | _, _ => []
      end
  end.

(** The commit counts of [k] days that are on: one draw per day, each from
    the generator state that the day before left. *)
Fixpoint draw_counts (R : RandomSource) (a : args) (k : nat) (g : rng R)
  : list Z * rng R :=
  match k with
  | O => ([], g)
  | S k' =>
      let (r, g') := draw R (max_commits a - min_commits a + 1) g in
      let (rest, g'') := draw_counts R a k' g' in
      ((min_commits a + r) :: rest, g'')
  end.

(** The commits of a schedule: [n] commits on each day, day after day. *)
Fixpoint expand (days : list datetime) (counts : list Z) : list datetime :=
  match days, counts with
  | d :: days', n :: counts' => (repeat d (Z.to_nat n) ++ expand days' counts')%list
  | _, _ => []
  end.

(** The counts of the loop over [days], and the generator it leaves. *)
Definition loop_counts {R : RandomSource} (a : args) (grid : list string)
    (days : list Z) (g : rng R) : list Z * rng R :=
  if dry_run a then ([], g)
  else draw_counts R a (List.length (filter (is_on grid) days)) g.

(** A digit of the hexadecimal notation in capitals. *)
Definition hex_digit (n : Z) : ascii :=
  nth (Z.to_nat n) (list_ascii_of_string "0123456789ABCDEF") "0"%char.

(** ["#" if c == "." else "."] *)
Definition flip_cell (c : ascii) : ascii :=
  (if Ascii.eqb c "." then "#" else ".")%char.

(** A character of the font: on or off. *)
Definition is_cell (c : ascii) : bool :=
  (Ascii.eqb c "." || Ascii.eqb c "#")%bool.

(** A text made of cells only. *)
Definition cells_only (s : string) : bool :=
  forallb is_cell (list_ascii_of_string s).

(** [n] times the character [c]. *)
Fixpoint repeat_char (c : ascii) (n : nat) : string :=
  match n with
  | O => EmptyString
  | S n' => String c (repeat_char c n')
  end.

(** A bar of 25 slots of which the first [k] are filled. *)
Definition bar_of (k : nat) : string :=
  repeat_char "=" k ++ repeat_char " " (25 - k).

(** The number of filled slots at [percent]. *)
Definition filled (percent : Q) : nat :=
  Z.to_nat (Z.max 0 (Z.min 25 (Qfloor percent / 4 + 1))).

(** The events of the preview of a cell: back to the start of the line, up
    to the row, right to the column unless it is the first, the character,
    and down again by as much as it went up. *)
Definition preview_events (y x : Z) (c : ascii) : list event :=
  ([Put (String (ascii_of_nat 13) ""); Put (ESC ++ "[" ++ Py.str_of_int (7 - y) ++ "A")]
   ++ (if 0 <? x then [Put (ESC ++ "[" ++ Py.str_of_int x ++ "C")] else [])
   ++ [Put (String c ""); Put (ESC ++ "[" ++ Py.str_of_int (7 - y) ++ "B")])%list.

(** ** Inputs for the examples *)

(** Sources of random numbers: [cycle_source] counts upwards, [low_source]
    always draws 0 and [high_source] always draws [n - 1]. *)
Definition cycle_source : RandomSource :=
  {| rng := nat;
     draw := fun n g => (Z.of_nat g mod n, S g);
     draw_range := fun n g Hn => Z.mod_pos_bound (Z.of_nat g) n Hn |}.

Definition low_source : RandomSource :=
  {| rng := unit;
     draw := fun _ g => (0, g);
     draw_range := fun n g Hn => conj (Z.le_refl 0) Hn |}.

Definition high_source : RandomSource :=
  {| rng := unit;
     draw := fun n g => (n - 1, g);
     draw_range := fun n g Hn =>
       conj (proj1 (Z.lt_le_pred 0 n) Hn) (Z.lt_pred_l n) |}.

(** Command lines for the examples. *)
Definition args_of (min max : Z) (dry : bool) (message : Py.ustr) : args :=
  {| min_commits := min; max_commits := max; dry_run := dry; invert := false;
     preview := false; start := Some (of_ymd 2023 1 1 0 0 0);
     message_words := [message] |}.

(** A start text that does not parse, a start too close to the end of the
    calendar, and a run with the preview on and equal bounds. *)
Definition args_unparsed : args :=
  {| min_commits := 30; max_commits := 35; dry_run := false; invert := false;
     preview := true; start := None; message_words := [[72; 105]] |}.

Definition args_late : args :=
  {| min_commits := 30; max_commits := 35; dry_run := false; invert := false;
     preview := false; start := Some (of_ymd 9999 12 25 0 0 0);
     message_words := [[33]] |}.

Definition args_preview : args :=
  {| min_commits := 2; max_commits := 2; dry_run := false; invert := false;
     preview := true; start := Some (of_ymd 2023 1 1 0 0 0);
     message_words := [[33]] |}.

(** ** Facts about the Python built-ins *)

Lemma len_append (s t : string) : Py.len (s ++ t) = Py.len s + Py.len t.
Proof.
  unfold Py.len.
  induction s as [|c s IH]; simpl String.length.
  - reflexivity.
  - rewrite !Nat2Z.inj_succ. lia.
Qed.

Lemma length_list_ascii (s : string) :
  List.length (list_ascii_of_string s) = String.length s.
Proof. induction s as [|c s IH]; simpl; [reflexivity | now rewrite IH]. Qed.

Lemma in_range (n i : Z) : In i (Py.range n) <-> 0 <= i < n.
Proof.
  unfold Py.range. rewrite in_map_iff. split.
  - intros [k [<- Hk]]. apply in_seq in Hk. lia.
  - intros Hi. exists (Z.to_nat i). split; [lia | apply in_seq; lia].
Qed.

Lemma length_range (n : Z) : List.length (Py.range n) = Z.to_nat n.
Proof. unfold Py.range. now rewrite length_map, length_seq. Qed.

(** Indexing inside the bounds returns the element at that position. *)
Lemma index_in_bounds {A : Type} (l : list A) (i : Z) :
  0 <= i < Z.of_nat (List.length l) ->
  exists a, Py.index l i = Ok a /\ nth_error l (Z.to_nat i) = Some a.
Proof.
  intros Hi. unfold Py.index.
  replace (i <? 0) with false by lia.
  replace ((i <? 0) || (Z.of_nat (List.length l) <=? i))%bool with false by lia.
  destruct (nth_error l (Z.to_nat i)) as [a|] eqn:E.
  - now exists a.
  - apply nth_error_None in E. lia.
Qed.

Lemma index_In {A : Type} (l : list A) (i : Z) (a : A) :
  Py.index l i = Ok a -> In a l.
Proof.
  unfold Py.index.
  destruct ((_ <? 0) || _)%bool; [discriminate|].
  destruct (nth_error l _) as [b|] eqn:E; [|discriminate].
  intros [= <-]. eapply nth_error_In; eauto.
Qed.

(** [rmap] succeeds when the function does on every element, and its result
    is related to the input element by element. *)
Lemma rmap_ok {A B : Type} (f : A -> result B) (P : B -> Prop) (l : list A) :
  (forall a, In a l -> exists b, f a = Ok b /\ P b) ->
  exists bs, rmap f l = Ok bs /\ List.length bs = List.length l /\ Forall P bs.
Proof.
  induction l as [|a l IH]; intros H; simpl.
  - exists []. repeat split; constructor.
  - destruct (H a (or_introl eq_refl)) as [b [Hb Pb]]. rewrite Hb.
    destruct IH as [bs [Hbs [Hlen HP]]]; [intros; apply H; now right|].
    rewrite Hbs. exists (b :: bs). repeat split; simpl; auto.
Qed.

(** ** The font table *)

Lemma font_length : List.length get_font = 95%nat.
Proof. vm_compute. reflexivity. Qed.

Lemma font_glyphs_ok : forallb glyph_ok get_font = true.
Proof. vm_compute. reflexivity. Qed.

(** ** The grid builder over a well-formed font *)

Section Grid.

Variable font : list (list string).
Hypothesis font_size : List.length font = 95%nat.
Hypothesis font_ok : forallb glyph_ok font = true.

Lemma glyph_lookup (c : Z) :
  printable c ->
  exists glyph,
    Py.index font (c - ASCII_PRINTABLE_FIRST) = Ok glyph
    /\ nth_error font (Z.to_nat (c - ASCII_PRINTABLE_FIRST)) = Some glyph
    /\ glyph_ok glyph = true.
Proof.
  unfold printable, ASCII_PRINTABLE_FIRST, ASCII_PRINTABLE_LAST. intros Hc.
  destruct (index_in_bounds font (c - 32)) as [glyph [Hi Hn]].
  - rewrite font_size. lia.
  - exists glyph. repeat split; auto.
    rewrite forallb_forall in font_ok. apply font_ok.
    eapply index_In; eauto.
Qed.

Lemma glyph_row (glyph : list string) (row : Z) :
  glyph_ok glyph = true -> 0 <= row < 7 ->
  exists piece row0 rest,
    glyph = row0 :: rest
    /\ Py.index glyph row = Ok piece
    /\ Py.len piece = Py.len row0.
Proof.
  intros Hg Hrow. unfold glyph_ok in Hg.
  destruct glyph as [|row0 rest]; [discriminate|].
  apply andb_true_iff in Hg. destruct Hg as [H7 Hall].
  apply Nat.eqb_eq in H7.
  destruct (index_in_bounds (row0 :: rest) row) as [piece [Hi Hn]].
  - rewrite H7. lia.
  - exists piece, row0, rest. repeat split; auto.
    rewrite forallb_forall in Hall.
    specialize (Hall piece (index_In _ _ _ Hi)).
    apply Nat.eqb_eq in Hall. unfold Py.len. now rewrite Hall.
Qed.

Lemma glyph_piece (c row : Z) :
  printable c -> 0 <= row < 7 ->
  exists glyph piece,
    Py.index font (c - ASCII_PRINTABLE_FIRST) = Ok glyph
    /\ Py.index glyph row = Ok piece
    /\ Py.len piece = glyph_columns font c.
Proof.
  intros Hc Hrow.
  destruct (glyph_lookup c Hc) as [glyph [Hi [_ Hok]]].
  destruct (glyph_row glyph row Hok Hrow) as [piece [row0 [rest [-> [Hp Hl]]]]].
  exists (row0 :: rest), piece. repeat split; auto.
  unfold glyph_columns. now rewrite Hi.
Qed.

Lemma add_glyphs_ok (row : Z) (message : Py.ustr) :
  0 <= row < 7 -> Forall printable message ->
  forall row_text,
  exists s,
    add_glyphs font row message row_text = Ok s
    /\ Py.len s = Py.len row_text + sum_columns font message
                  + Z.of_nat (List.length message).
Proof.
  intros Hrow Hm. induction Hm as [|c rest Hc Hrest IH]; intros row_text.
  - exists row_text. split; [reflexivity|]. cbn [sum_columns List.length]. lia.
  - destruct (glyph_piece c row Hc Hrow) as [glyph [piece [Hg [Hp Hl]]]].
    cbn [add_glyphs]. rewrite Hg, Hp.
    destruct (IH (row_text ++ (piece ++ "."))) as [s [Hs Hlen]].
    exists s. split; [exact Hs|].
    rewrite Hlen, !len_append, Hl.
    cbn [sum_columns List.length]. rewrite Nat2Z.inj_succ.
    change (Py.len ".") with 1. lia.
Qed.

Lemma len_invert_text (s : string) : Py.len (invert_text s) = Py.len s.
Proof.
  unfold Py.len. f_equal.
  induction s as [|c s IH]; simpl; [reflexivity | now rewrite IH].
Qed.

Lemma build_row_ok (message : Py.ustr) (inv : bool) (row : Z) :
  0 <= row < 7 -> Forall printable message ->
  exists s,
    build_row font message inv row = Ok s
    /\ Py.len s = sum_columns font message + Z.of_nat (List.length message) + 1.
Proof.
  intros Hrow Hm. unfold build_row.
  destruct (add_glyphs_ok row message Hrow Hm ".") as [s [Hs Hlen]].
  rewrite Hs. change (Py.len ".") with 1 in Hlen.
  destruct inv; eexists; (split; [reflexivity|]).
  - rewrite len_invert_text. lia.
  - lia.
Qed.

Lemma build_grid_ok (message : Py.ustr) (inv : bool) :
  Forall printable message ->
  exists grid,
    build_grid font message inv = Ok grid
    /\ List.length grid = 7%nat
    /\ Forall (fun row => Py.len row = sum_columns font message
                                        + Z.of_nat (List.length message) + 1) grid.
Proof.
  intros Hm. unfold build_grid.
  destruct (rmap_ok (build_row font message inv)
              (fun row => Py.len row = sum_columns font message
                                       + Z.of_nat (List.length message) + 1)
              (Py.range 7)) as [grid [Hg [Hlen HP]]].
  - intros row Hin. apply in_range in Hin. now apply build_row_ok.
  - exists grid. split; [exact Hg|]. split; [|exact HP].
    rewrite Hlen. reflexivity.
Qed.

End Grid.

(** ** Validation of the message *)

(** The report lists, in order, the characters that are not printable. *)
Lemma invalid_chars_filter (message : Py.ustr) :
  invalid_chars message
  = map (fun c => "0x" ++ Py.format_02X c)
        (filter (fun c => negb (printableb c)) message).
Proof.
  induction message as [|c rest IH]; [reflexivity|].
  cbn [invalid_chars filter]. unfold printableb at 1.
  destruct (ASCII_PRINTABLE_FIRST <=? c) eqn:E1;
    destruct (c <=? ASCII_PRINTABLE_LAST) eqn:E2;
    replace (c <? ASCII_PRINTABLE_FIRST) with (negb (ASCII_PRINTABLE_FIRST <=? c)) by lia;
    replace (ASCII_PRINTABLE_LAST <? c) with (negb (c <=? ASCII_PRINTABLE_LAST)) by lia;
    rewrite E1, E2; cbn [negb orb andb map]; now rewrite IH.
Qed.

Lemma invalid_chars_nil (message : Py.ustr) :
  invalid_chars message = [] <-> Forall printable message.
Proof.
  induction message as [|c rest IH].
  - split; [constructor | reflexivity].
  - cbn [invalid_chars].
    destruct ((c <? ASCII_PRINTABLE_FIRST) || (ASCII_PRINTABLE_LAST <? c))%bool eqn:E.
    + split; [discriminate|]. intros H. inversion H; subst.
      unfold printable in *. lia.
    + rewrite IH. split.
      * intros H. constructor; [unfold printable; lia | exact H].
      * intros H. now inversion H.
Qed.

(** ** The calendar window *)

(** The ordinals agree with the calendar: 0001-01-01 is day 1, 2023-01-01
    is day 738521 and a Sunday, and the last day is 9999-12-31. *)
Lemma ordinal_examples :
  ymd2ord 1 1 1 = 1
  /\ ymd2ord 2023 1 1 = 738521
  /\ weekday (of_ymd 2023 1 1 0 0 0) = SUNDAY
  /\ ymd2ord 2024 2 29 + 1 = ymd2ord 2024 3 1
  /\ MAXORDINAL = 3652059.
Proof. vm_compute. repeat split. Qed.

Lemma NoDup_range (n : Z) : NoDup (Py.range n).
Proof.
  unfold Py.range. apply Injective_map_NoDup.
  - intros a b. apply Nat2Z.inj.
  - apply seq_NoDup.
Qed.

(** In a grid of 7 rows of [C] columns every day of the window has a cell. *)
Lemma cell_in_grid (grid : list string) (C d : Z) :
  List.length grid = 7%nat ->
  (forall row, In row grid -> Py.len row = C) ->
  0 <= d < 7 * C ->
  exists row c,
    Py.index grid (d mod 7) = Ok row
    /\ Py.str_index row (d / 7) = Ok c
    /\ cell grid d = Ok c.
Proof.
  intros H7 HC Hd.
  assert (Hy : 0 <= d mod 7 < 7) by (apply Z.mod_pos_bound; lia).
  assert (Hx : 0 <= d / 7 < C).
  { split; [apply Z.div_pos; lia | apply Z.div_lt_upper_bound; lia]. }
  destruct (index_in_bounds grid (d mod 7)) as [row [Hrow _]]; [rewrite H7; lia|].
  pose proof (HC row (index_In _ _ _ Hrow)) as Hlen.
  destruct (index_in_bounds (list_ascii_of_string row) (d / 7)) as [c [Hc _]].
  { rewrite length_list_ascii. unfold Py.len in Hlen. lia. }
  exists row, c. split; [exact Hrow|]. split; [exact Hc|].
  unfold cell, coords. rewrite Hrow. exact Hc.
Qed.

Lemma num_days_of_grid (grid : list string) (C : Z) :
  List.length grid = 7%nat ->
  (forall row, In row grid -> Py.len row = C) ->
  num_days_of grid = Ok (7 * C).
Proof.
  intros H7 HC. unfold num_days_of.
  destruct (index_in_bounds grid 0) as [row0 [H0 _]]; [rewrite H7; lia|].
  rewrite H0, H7, (HC row0 (index_In _ _ _ H0)). reflexivity.
Qed.

(** From the seventh day of the calendar on, the beginning exists, keeps
    the time zone, is at noon and is the Sunday on or before the start. *)
Lemma window_beginning_spec (start : datetime) :
  7 <= ordinal start <= MAXORDINAL ->
  exists beginning,
    window_beginning start = Ok beginning
    /\ weekday beginning = SUNDAY
    /\ hour beginning = 12 /\ minute beginning = 0
    /\ second beginning = 0 /\ microsecond beginning = 0
    /\ tzinfo beginning = tzinfo start
    /\ ordinal beginning
       = ordinal start - (weekday (replace start 12 0 0 0) + 1) mod 7
    /\ ordinal beginning <= ordinal start < ordinal beginning + 7.
Proof.
  intros [H7 Hhi].
  unfold window_beginning, sub_days, add_days, weekday, SUNDAY.
  cbn [ordinal replace].
  set (k := ((ordinal start + 6) mod 7 + 1) mod 7).
  assert (Hk : 0 <= k < 7) by (apply Z.mod_pos_bound; lia).
  replace ((0 <? ordinal start + - k) && (ordinal start + - k <=? MAXORDINAL))%bool
    with true by lia.
  eexists. split; [reflexivity|].
  cbn [shift ordinal hour minute second microsecond tzinfo replace].
  repeat split; try lia.
  subst k.
  pose proof (Z.div_mod (ordinal start + 6) 7).
  pose proof (Z.mod_pos_bound (ordinal start + 6) 7).
  pose proof (Z.div_mod ((ordinal start + 6) mod 7 + 1) 7).
  pose proof (Z.mod_pos_bound ((ordinal start + 6) mod 7 + 1) 7).
  pose proof (Z.div_mod (ordinal start + - (((ordinal start + 6) mod 7 + 1) mod 7) + 6) 7).
  pose proof (Z.mod_pos_bound (ordinal start + - (((ordinal start + 6) mod 7 + 1) mod 7) + 6) 7).
  lia.
Qed.

(** ** Running programs: the trace and the outcome *)

Section Runs.

Context {R : RandomSource}.

Lemma run_pair {A : Type} (c : prog R A) (g : rng R) :
  c g = (trace c g, outcome c g).
Proof. unfold trace, outcome. now destruct (c g). Qed.

Lemma trace_bind {A B : Type} (c : prog R A) (k : A -> prog R B) (g : rng R) :
  trace (bind c k) g
  = (trace c g
     ++ match outcome c g with
        | Ok (a, g') => trace (k a) g'
        | Raise _ => []
        end)%list.
Proof.
  unfold trace, outcome, bind.
  destruct (c g) as [out [[a g']|e]]; cbn [fst snd].
  - now destruct (k a g').
  - now rewrite app_nil_r.
Qed.

Lemma outcome_bind {A B : Type} (c : prog R A) (k : A -> prog R B) (g : rng R) :
  outcome (bind c k) g
  = match outcome c g with
    | Ok (a, g') => outcome (k a) g'
    | Raise e => Raise e
    end.
Proof.
  unfold outcome, bind.
  destruct (c g) as [out [[a g']|e]]; cbn [fst snd]; [|reflexivity].
  now destruct (k a g').
Qed.

Lemma trace_bind_emit {B : Type} (e : event) (k : unit -> prog R B) (g : rng R) :
  trace (bind (emit e) k) g = e :: trace (k tt) g.
Proof. now rewrite trace_bind. Qed.

Lemma outcome_bind_emit {B : Type} (e : event) (k : unit -> prog R B) (g : rng R) :
  outcome (bind (emit e) k) g = outcome (k tt) g.
Proof. now rewrite outcome_bind. Qed.

Lemma trace_bind_lift_ok {A B : Type} (a : A) (k : A -> prog R B) (g : rng R) :
  trace (bind (lift (Ok a)) k) g = trace (k a) g.
Proof. now rewrite trace_bind. Qed.

Lemma outcome_bind_lift_ok {A B : Type} (a : A) (k : A -> prog R B) (g : rng R) :
  outcome (bind (lift (Ok a)) k) g = outcome (k a) g.
Proof. now rewrite outcome_bind. Qed.

Lemma trace_bind_lift_raise {A B : Type} (e : exn) (k : A -> prog R B) (g : rng R) :
  trace (bind (lift (Raise e)) k) g = [].
Proof. now rewrite trace_bind. Qed.

Lemma outcome_bind_lift_raise {A B : Type} (e : exn) (k : A -> prog R B) (g : rng R) :
  outcome (bind (lift (Raise e)) k) g = Raise e.
Proof. now rewrite outcome_bind. Qed.

Lemma trace_bind_when_false {B : Type} (c : prog R unit) (k : unit -> prog R B)
    (g : rng R) :
  trace (bind (when false c) k) g = trace (k tt) g.
Proof. now rewrite trace_bind. Qed.

Lemma outcome_bind_when_false {B : Type} (c : prog R unit) (k : unit -> prog R B)
    (g : rng R) :
  outcome (bind (when false c) k) g = outcome (k tt) g.
Proof. now rewrite outcome_bind. Qed.

(** A failed check ends the run: usage, the message, exit status 1. *)
Lemma trace_bind_usage_error {B : Type} (msg : string) (k : unit -> prog R B)
    (g : rng R) :
  trace (bind (when true (usage_error msg)) k) g = [PrintUsage; Eprint msg].
Proof. now rewrite trace_bind. Qed.

Lemma outcome_bind_usage_error {B : Type} (msg : string) (k : unit -> prog R B)
    (g : rng R) :
  outcome (bind (when true (usage_error msg)) k) g = Raise (SystemExit 1).
Proof. now rewrite outcome_bind. Qed.

Lemma trace_repeat_emit (n : nat) (e : event) (g : rng R) :
  trace (repeat_prog n (emit e)) g = repeat e n.
Proof.
  induction n as [|n IH]; [reflexivity|].
  cbn [repeat_prog repeat]. now rewrite trace_bind_emit, IH.
Qed.

Lemma outcome_repeat_emit (n : nat) (e : event) (g : rng R) :
  outcome (repeat_prog n (emit e)) g = Ok (tt, g).
Proof.
  induction n as [|n IH]; [reflexivity|].
  cbn [repeat_prog]. now rewrite outcome_bind_emit, IH.
Qed.

End Runs.

Lemma commit_dates_app (l1 l2 : list event) :
  commit_dates (l1 ++ l2)%list = (commit_dates l1 ++ commit_dates l2)%list.
Proof.
  induction l1 as [|e l1 IH]; [reflexivity|].
  destruct e; cbn [commit_dates app]; now rewrite IH.
Qed.

Lemma commit_dates_repeat_commit (d : datetime) (n : nat) :
  commit_dates (repeat (GitCommit d) n) = repeat d n.
Proof. induction n as [|n IH]; [reflexivity|]. cbn [repeat commit_dates]. now rewrite IH. Qed.

Lemma commit_dates_repeat_print (s : string) (n : nat) :
  commit_dates (repeat (Print s) n) = [].
Proof. induction n as [|n IH]; [reflexivity|]. exact IH. Qed.

(** ** The checks at the start of [main] *)

Ltac check_passes :=
  rewrite trace_bind_when_false, outcome_bind_when_false; cbv beta.

Ltac check_fails :=
  rewrite trace_bind_usage_error, outcome_bind_usage_error; reflexivity.

Section Checks.

Context (R : RandomSource) (a : args) (g : rng R).

Lemma message_nonempty_test :
  message_of a <> [] -> (Z.of_nat (List.length (message_of a)) =? 0) = false.
Proof.
  destruct (message_of a); [congruence|].
  intros _. apply Z.eqb_neq. cbn [List.length]. lia.
Qed.

Lemma run_empty_message :
  message_of a = [] -> run R a g = rejected "Empty message is invalid".
Proof.
  intros Hm. unfold run, rejected. rewrite (run_pair (main a) g).
  unfold main. cbv zeta. rewrite Hm. cbn [List.length Z.of_nat Z.eqb].
  check_fails.
Qed.

Lemma run_min_negative :
  message_of a <> [] -> min_commits a < 0 ->
  run R a g = rejected "MIN_COMMITS must be at least 0".
Proof.
  intros Hm Hmin. unfold run, rejected. rewrite (run_pair (main a) g).
  unfold main. cbv zeta.
  rewrite (message_nonempty_test Hm). check_passes.
  replace (min_commits a <? 0) with true by lia. check_fails.
Qed.

Lemma run_max_below_one :
  message_of a <> [] -> 0 <= min_commits a -> max_commits a < 1 ->
  run R a g = rejected "MAX_COMMITS must be at least 1".
Proof.
  intros Hm Hmin Hmax. unfold run, rejected. rewrite (run_pair (main a) g).
  unfold main. cbv zeta.
  rewrite (message_nonempty_test Hm). check_passes.
  replace (min_commits a <? 0) with false by lia. check_passes.
  replace (max_commits a <? 1) with true by lia. check_fails.
Qed.

Lemma run_min_above_max :
  message_of a <> [] -> 0 <= min_commits a -> 1 <= max_commits a ->
  max_commits a < min_commits a ->
  run R a g
  = rejected ("MIN_COMMITS (" ++ Py.str_of_int (min_commits a)
              ++ ") cannot be more than MAX_COMMITS ("
              ++ Py.str_of_int (max_commits a) ++ ")").
Proof.
  intros Hm Hmin Hmax Hlt. unfold run, rejected. rewrite (run_pair (main a) g).
  unfold main. cbv zeta.
  rewrite (message_nonempty_test Hm). check_passes.
  replace (min_commits a <? 0) with false by lia. check_passes.
  replace (max_commits a <? 1) with false by lia. check_passes.
  replace (max_commits a <? min_commits a) with true by lia. check_fails.
Qed.

Lemma run_invalid_chars :
  message_of a <> [] -> bounds_ok a -> invalid_chars (message_of a) <> [] ->
  run R a g
  = rejected ("Unsupported characters in message: "
              ++ Py.join " " (invalid_chars (message_of a))).
Proof.
  intros Hm (Hmin & Hmax & Hle) Hinv. unfold run, rejected.
  rewrite (run_pair (main a) g). unfold main. cbv zeta.
  rewrite (message_nonempty_test Hm). check_passes.
  replace (min_commits a <? 0) with false by lia. check_passes.
  replace (max_commits a <? 1) with false by lia. check_passes.
  replace (max_commits a <? min_commits a) with false by lia. check_passes.
  replace (0 <? Z.of_nat (List.length (invalid_chars (message_of a)))) with true.
  - check_fails.
  - destruct (invalid_chars (message_of a)); [congruence|].
    symmetry. apply Z.ltb_lt. cbn [List.length]. lia.
Qed.

(** Whatever check fails first, the run ends the same way. *)
Lemma run_rejected :
  message_of a = [] \/ ~ bounds_ok a \/ invalid_chars (message_of a) <> [] ->
  exists msg, run R a g = rejected msg.
Proof.
  intros H.
  destruct (message_of a) as [|c rest] eqn:Em.
  { eexists. now apply run_empty_message. }
  assert (Hm : message_of a <> []) by (rewrite Em; discriminate).
  rewrite <- Em in *. clear Em c rest.
  destruct (Z_lt_le_dec (min_commits a) 0) as [H1|H1].
  { eexists. now apply run_min_negative. }
  destruct (Z_lt_le_dec (max_commits a) 1) as [H2|H2].
  { eexists. now apply run_max_below_one. }
  destruct (Z_lt_le_dec (max_commits a) (min_commits a)) as [H3|H3].
  { eexists. now apply run_min_above_max. }
  assert (Hb : bounds_ok a) by (unfold bounds_ok; lia).
  destruct H as [H|[H|H]]; [contradiction | contradiction |].
  eexists. now apply run_invalid_chars.
Qed.

End Checks.

(** ** The schedule of a run *)

Lemma draw_counts_succ (R : RandomSource) (a : args) (k : nat) (g : rng R) :
  let d := draw R (max_commits a - min_commits a + 1) g in
  fst (draw_counts R a (S k) g)
  = (min_commits a + fst d) :: fst (draw_counts R a k (snd d))
  /\ snd (draw_counts R a (S k) g) = snd (draw_counts R a k (snd d)).
Proof.
  cbn [draw_counts].
  destruct (draw R (max_commits a - min_commits a + 1) g) as [r g'].
  cbn [fst snd]. now destruct (draw_counts R a k g').
Qed.

Lemma draw_counts_length (R : RandomSource) (a : args) (k : nat) (g : rng R) :
  List.length (fst (draw_counts R a k g)) = k.
Proof.
  revert g. induction k as [|k IH]; intros g; [reflexivity|].
  destruct (draw_counts_succ R a k g) as [-> _].
  cbn [List.length]. now rewrite IH.
Qed.

(** Every count drawn lies between the two bounds. *)
Lemma draw_counts_range (R : RandomSource) (a : args) (k : nat) (g : rng R) :
  bounds_ok a ->
  Forall (fun n => min_commits a <= n <= max_commits a) (fst (draw_counts R a k g)).
Proof.
  intros (Hmin & Hmax & Hle). revert g.
  induction k as [|k IH]; intros g; [constructor|].
  destruct (draw_counts_succ R a k g) as [-> _].
  constructor; [|apply IH].
  pose proof (draw_range R (max_commits a - min_commits a + 1) g ltac:(lia)).
  lia.
Qed.

Lemma add_days_inv (dt d : datetime) (n : Z) :
  add_days dt n = Ok d ->
  d = shift dt n /\ 0 < ordinal dt + n <= MAXORDINAL.
Proof.
  unfold add_days.
  destruct ((0 <? ordinal dt + n) && (ordinal dt + n <=? MAXORDINAL))%bool eqn:E;
    [|discriminate].
  intros [= <-]. split; [reflexivity | lia].
Qed.

Lemma add_days_in_range (dt : datetime) (n : Z) :
  0 < ordinal dt + n <= MAXORDINAL -> add_days dt n = Ok (shift dt n).
Proof.
  intros H. unfold add_days.
  now replace ((0 <? ordinal dt + n) && (ordinal dt + n <=? MAXORDINAL))%bool
    with true by lia.
Qed.

(** ** The loop over the days *)

Section Loop.

Context {R : RandomSource}.

Lemma quiet_ret : quiet R (ret tt).
Proof. intros g. now split. Qed.

Lemma quiet_emit (e : event) : commit_dates [e] = [] -> quiet R (emit e).
Proof. intros H g. now split. Qed.

Lemma quiet_bind (c : prog R unit) (k : unit -> prog R unit) :
  quiet R c -> quiet R (k tt) -> quiet R (bind c k).
Proof.
  intros Hc Hk g. destruct (Hc g) as [Ho Ht]. destruct (Hk g) as [Ho' Ht'].
  rewrite outcome_bind, trace_bind, Ho, commit_dates_app, Ht, Ht'. now split.
Qed.

Lemma quiet_when (b : bool) (c : prog R unit) : quiet R c -> quiet R (when b c).
Proof. destruct b; [trivial | intros _; apply quiet_ret]. Qed.

Lemma quiet_cursor_up (n : Z) : quiet R (cursor_up n).
Proof. unfold cursor_up. destruct (0 <? n); [now apply quiet_emit | apply quiet_ret]. Qed.

Lemma quiet_cursor_down (n : Z) : quiet R (cursor_down n).
Proof. unfold cursor_down. destruct (0 <? n); [now apply quiet_emit | apply quiet_ret]. Qed.

Lemma quiet_cursor_right (n : Z) : quiet R (cursor_right n).
Proof. unfold cursor_right. destruct (0 <? n); [now apply quiet_emit | apply quiet_ret]. Qed.

Lemma quiet_repeat_print (n : nat) (s : string) : quiet R (repeat_prog n (emit (Print s))).
Proof.
  intros g. rewrite outcome_repeat_emit, trace_repeat_emit, commit_dates_repeat_print.
  now split.
Qed.

(** A quiet step in front changes neither the outcome nor the commits. *)
Lemma bind_quiet {B : Type} (c : prog R unit) (k : unit -> prog R B) (g : rng R) :
  quiet R c ->
  outcome (bind c k) g = outcome (k tt) g
  /\ commit_dates (trace (bind c k) g) = commit_dates (trace (k tt) g).
Proof.
  intros Hc. destruct (Hc g) as [Ho Ht].
  rewrite outcome_bind, trace_bind, Ho, commit_dates_app, Ht. now split.
Qed.

Lemma bind_randrange {B : Type} (n : Z) (k : Z -> prog R B) (g : rng R) :
  0 < n ->
  outcome (bind (randrange n) k) g = outcome (k (fst (draw R n g))) (snd (draw R n g))
  /\ trace (bind (randrange n) k) g = trace (k (fst (draw R n g))) (snd (draw R n g)).
Proof.
  intros Hn.
  assert (Hr : randrange n g = ([], Ok (draw R n g))).
  { unfold randrange. now replace (n <=? 0) with false by lia. }
  assert (Ho : outcome (randrange n) g = Ok (draw R n g))
    by (unfold outcome; now rewrite Hr).
  assert (Ht : trace (randrange n) g = [])
    by (unfold trace; now rewrite Hr).
  rewrite outcome_bind, trace_bind, Ho, Ht.
  now destruct (draw R n g).
Qed.

Variable a : args.
Variable grid : list string.
Variable C : Z.
Variable beginning : datetime.

Hypothesis grid_rows : List.length grid = 7%nat.
Hypothesis grid_cols : forall row, In row grid -> Py.len row = C.
Hypothesis bounds : bounds_ok a.
Hypothesis beginning_range : 0 < ordinal beginning.
Hypothesis ending_range : ordinal beginning + (7 * C - 1) <= MAXORDINAL.

(** What one day does: its date, the generator it leaves and its commits. *)
Lemma day_body_run (day : Z) (g : rng R) :
  0 <= day < 7 * C ->
  let d := draw R (max_commits a - min_commits a + 1) g in
  let committing := is_on grid day && negb (dry_run a) in
  outcome (day_body a grid beginning (7 * C) day) g
  = Ok (shift beginning day, if committing then snd d else g)
  /\ commit_dates (trace (day_body a grid beginning (7 * C) day) g)
     = if committing
       then repeat (shift beginning day) (Z.to_nat (min_commits a + fst d))
       else [].
Proof.
  intros Hday.
  destruct (cell_in_grid grid C day grid_rows grid_cols Hday)
    as [row [c [Hrow [Hc Hcell]]]].
  assert (Hdate : add_days beginning day = Ok (shift beginning day))
    by (apply add_days_in_range; lia).
  destruct bounds as (Hmin & Hmax & Hle).
  unfold is_on. rewrite Hcell.
  unfold day_body, coords. cbv beta iota zeta.
  rewrite Hrow, outcome_bind_lift_ok, trace_bind_lift_ok.
  rewrite Hc, outcome_bind_lift_ok, trace_bind_lift_ok.
  rewrite Hdate, outcome_bind_lift_ok, trace_bind_lift_ok.
  rewrite outcome_bind_emit, trace_bind_emit.
  cbn [commit_dates].
  destruct (Ascii.eqb c ".") eqn:Edot; cbn [negb andb].
  { now split. }
  set (block := when (preview a) _).
  assert (Hblock : quiet R block).
  { apply quiet_when.
    repeat (apply quiet_bind;
            [first [ now apply quiet_emit | apply quiet_cursor_up
                   | apply quiet_cursor_right | apply quiet_cursor_down ]|]).
    apply quiet_cursor_down. }
  rewrite outcome_bind, trace_bind, commit_dates_app.
  destruct (dry_run a); cbn [negb].
  - (* dry run: sleep *)
    cbn [outcome trace emit fst snd commit_dates app].
    destruct (bind_quiet block (fun _ => ret (shift beginning day)) g Hblock)
      as [Ho Ht].
    rewrite Ho, Ht. now split.
  - (* one draw, then that many commits *)
    destruct (bind_randrange (max_commits a - min_commits a + 1)
                (fun r => repeat_prog (Z.to_nat (min_commits a + r))
                            (emit (GitCommit (shift beginning day)))) g ltac:(lia))
      as [Ho Ht].
    rewrite Ho, Ht, outcome_repeat_emit, trace_repeat_emit,
      commit_dates_repeat_commit.
    destruct (bind_quiet block (fun _ => ret (shift beginning day))
                (snd (draw R (max_commits a - min_commits a + 1) g)) Hblock)
      as [Ho' Ht'].
    rewrite Ho', Ht'. cbn [outcome trace ret fst snd commit_dates].
    rewrite app_nil_r. now split.
Qed.

Lemma for_days_run (days : list Z) :
  (forall day, In day days -> 0 <= day < 7 * C) ->
  forall (the_date : option datetime) (g : rng R),
  exists last,
    outcome (for_days (day_body a grid beginning (7 * C)) days the_date) g
    = Ok (last, snd (loop_counts a grid days g))
    /\ (last = None -> the_date = None /\ days = [])
    /\ commit_dates
         (trace (for_days (day_body a grid beginning (7 * C)) days the_date) g)
       = expand (map (shift beginning) (filter (is_on grid) days))
                (fst (loop_counts a grid days g)).
Proof.
  induction days as [|day rest IH]; intros Hin the_date g.
  - exists the_date. unfold loop_counts.
    destruct (dry_run a); cbn; repeat split; auto.
  - assert (Hday : 0 <= day < 7 * C) by (apply Hin; now left).
    destruct (day_body_run day g Hday) as [Ho Ht].
    cbn [for_days]. rewrite outcome_bind, trace_bind, commit_dates_app, Ho, Ht.
    set (g1 := if is_on grid day && negb (dry_run a)
               then snd (draw R (max_commits a - min_commits a + 1) g) else g).
    destruct (IH (fun d Hd => Hin d (or_intror Hd)) (Some (shift beginning day)) g1)
      as [last [Ho' [Hlast Ht']]].
    exists last. rewrite Ho', Ht'. clear Ho Ht Ho' Ht' IH.
    split; [|split].
    + f_equal. f_equal. subst g1. unfold loop_counts. cbn [filter].
      destruct (dry_run a); cbn [negb andb].
      * now rewrite andb_false_r.
      * rewrite andb_true_r. destruct (is_on grid day); [|reflexivity].
        cbn [List.length].
        now destruct (draw_counts_succ R a
                        (List.length (filter (is_on grid) rest)) g) as [_ ->].
    + intros E. destruct (Hlast E) as [E' _]. discriminate.
    + subst g1. unfold loop_counts. cbn [filter].
      destruct (dry_run a); cbn [negb andb].
      * rewrite andb_false_r. cbn [fst app].
        destruct (is_on grid day); cbn [map expand]; try reflexivity.
        now destruct (map _ _).
      * rewrite andb_true_r. destruct (is_on grid day); [|reflexivity].
        cbn [List.length map].
        destruct (draw_counts_succ R a
                    (List.length (filter (is_on grid) rest)) g) as [-> _].
        reflexivity.
Qed.

End Loop.

(** ** A run that passes the checks *)

Lemma expand_nil_r (days : list datetime) : expand days [] = [].
Proof. now destruct days. Qed.

Lemma glyph_columns_nonneg (font : list (list string)) (c : Z) :
  0 <= glyph_columns font c.
Proof.
  unfold glyph_columns, Py.len.
  destruct (Py.index font _) as [[|row0 rest]|]; lia.
Qed.

Lemma sum_columns_nonneg (font : list (list string)) (message : Py.ustr) :
  0 <= sum_columns font message.
Proof.
  induction message as [|c rest IH]; cbn [sum_columns]; [lia|].
  pose proof (glyph_columns_nonneg font c). lia.
Qed.

Lemma grid_width_pos (message : Py.ustr) : 1 <= grid_width message.
Proof.
  unfold grid_width. pose proof (sum_columns_nonneg get_font message). lia.
Qed.

Section ValidRun.

Context (R : RandomSource) (a : args) (g : rng R) (s : datetime).

Hypothesis message_nonempty : message_of a <> [].
Hypothesis message_printable : Forall printable (message_of a).
Hypothesis bounds : bounds_ok a.
Hypothesis start_parsed : start a = Some s.

(** The commits of the run are those of the schedule, with the counts drawn
    one per day; the run ends normally when the window fits the calendar. *)
Lemma run_valid :
  let days := on_days (message_of a) (invert a) s in
  commit_dates (fst (run R a g))
  = (if dry_run a then []
     else expand days (fst (draw_counts R a (List.length days) g)))
  /\ (7 <= ordinal s ->
      ordinal s + 7 * grid_width (message_of a) - 1 <= MAXORDINAL ->
      snd (run R a g)
      = Ok (tt, if dry_run a then g
                else snd (draw_counts R a (List.length days) g))).
Proof.
  destruct bounds as (Hmin & Hmax & Hle).
  destruct (build_grid_ok get_font font_length font_glyphs_ok
              (message_of a) (invert a) message_printable)
    as [grid [Hg [H7 Hall]]].
  rewrite Forall_forall in Hall. fold (grid_width (message_of a)) in Hall.
  pose proof (grid_width_pos (message_of a)) as HC.
  set (C := grid_width (message_of a)) in *.
  pose proof (num_days_of_grid grid C H7 Hall) as Hn.
  unfold run. change (fst (main a g)) with (trace (main a) g).
  change (snd (main a g)) with (outcome (main a) g).
  unfold on_days. rewrite Hg, Hn.
  unfold main. cbv zeta.
  rewrite (message_nonempty_test a message_nonempty). check_passes.
  replace (min_commits a <? 0) with false by lia. check_passes.
  replace (max_commits a <? 1) with false by lia. check_passes.
  replace (max_commits a <? min_commits a) with false by lia. check_passes.
  rewrite (proj2 (invalid_chars_nil (message_of a)) message_printable).
  cbn [List.length Z.of_nat Z.ltb Z.compare]. check_passes.
  rewrite Hg, outcome_bind_lift_ok, trace_bind_lift_ok.
  rewrite Hn, outcome_bind_lift_ok, trace_bind_lift_ok.
  rewrite start_parsed, outcome_bind_lift_ok, trace_bind_lift_ok.
  destruct (window_beginning s) as [b|e] eqn:Eb.
  2:{ rewrite outcome_bind_lift_raise, trace_bind_lift_raise.
      split; [now destruct (dry_run a)|].
      intros Hs Hfit.
      destruct (window_beginning_spec s) as [b' [Eb' _]];
        [unfold MAXORDINAL in *; lia | congruence]. }
  rewrite outcome_bind_lift_ok, trace_bind_lift_ok.
  assert (Hb : 0 < ordinal b <= MAXORDINAL /\ (7 <= ordinal s -> ordinal b <= ordinal s)).
  { unfold window_beginning, sub_days in Eb. apply add_days_inv in Eb.
    destruct Eb as [-> Hr]. cbn [shift ordinal replace] in *.
    split; [exact Hr|]. intros _.
    pose proof (Z.mod_pos_bound (weekday (replace s 12 0 0 0) + 1) 7). lia. }
  destruct Hb as [Hb Hbs].
  destruct (add_days b (7 * C - 1)) as [ending|e] eqn:Ee.
  2:{ rewrite outcome_bind_lift_raise, trace_bind_lift_raise.
      split; [now destruct (dry_run a)|].
      intros Hs Hfit.
      rewrite add_days_in_range in Ee; [discriminate|].
      specialize (Hbs Hs). lia. }
  rewrite outcome_bind_lift_ok, trace_bind_lift_ok.
  rewrite !outcome_bind_emit, !trace_bind_emit. cbn [commit_dates].
  apply add_days_inv in Ee. destruct Ee as [_ He].
  set (block := when (preview a) _).
  assert (Hblock : quiet R block)
    by (apply quiet_when, quiet_repeat_print).
  match goal with
  | |- context [bind block ?k] =>
      destruct (bind_quiet block k g Hblock) as [Ho Ht]
  end.
  cbv beta in Ho, Ht. rewrite Ho, Ht. clear Ho Ht.
  destruct (for_days_run (R := R) a grid C b H7 Hall
              (conj Hmin (conj Hmax Hle)) (proj1 Hb) (proj2 He)
              (Py.range (7 * C)) (fun d Hd => proj1 (in_range (7 * C) d) Hd)
              None g)
    as [last [Ho [Hlast Ht]]].
  rewrite outcome_bind, trace_bind, commit_dates_app, Ho, Ht.
  unfold loop_counts. rewrite length_map.
  assert (Hl : last <> None).
  { intros E. destruct (Hlast E) as [_ Er].
    pose proof (length_range (7 * C)) as Hr. rewrite Er in Hr.
    cbn [List.length] in Hr. lia. }
  destruct last as [d|]; [|congruence].
  cbn [trace outcome emit fst snd commit_dates]. rewrite app_nil_r.
  destruct (dry_run a).
  - cbn [fst snd]. rewrite expand_nil_r. now split.
  - now split.
Qed.

End ValidRun.

(** ** The days that receive commits *)

Lemma in_expand (d : datetime) (days : list datetime) (counts : list Z) :
  In d (expand days counts) -> In d days.
Proof.
  revert counts. induction days as [|d0 days IH]; intros [|n counts];
    cbn [expand]; try contradiction.
  intros H. apply in_app_or in H. destruct H as [H|H].
  - apply repeat_spec in H. now left.
  - right. eapply IH; eauto.
Qed.

Lemma in_expand_positive (d : datetime) (days : list datetime) (counts : list Z) :
  List.length counts = List.length days ->
  Forall (fun n => 1 <= n) counts ->
  In d days -> In d (expand days counts).
Proof.
  revert counts. induction days as [|d0 days IH]; intros [|n counts] Hlen Hpos Hin;
    cbn [List.length] in Hlen; try discriminate; try contradiction.
  inversion Hpos as [|? ? Hn Hrest]; subst.
  cbn [expand]. apply in_or_app. destruct Hin as [<-|Hin].
  - left. destruct (Z.to_nat n) as [|k] eqn:E; [lia|]. now left.
  - right. apply IH; auto.
Qed.

Lemma format_02X_byte_check :
  forallb
    (fun c => String.eqb (Py.format_02X c)
                (String (hex_digit (c / 16)) (String (hex_digit (c mod 16)) "")))
    (Py.range 256) = true.
Proof. vm_compute. reflexivity. Qed.

Lemma format_02X_byte (c : Z) :
  0 <= c < 256 ->
  Py.format_02X c = String (hex_digit (c / 16)) (String (hex_digit (c mod 16)) "").
Proof.
  intros Hc. pose proof format_02X_byte_check as H.
  rewrite forallb_forall in H. apply String.eqb_eq, H, in_range, Hc.
Qed.

Lemma length_zeros (n : nat) : String.length (Py.zeros n) = n.
Proof. induction n as [|n IH]; [reflexivity|]. cbn [Py.zeros String.length]. now rewrite IH. Qed.

Lemma format_02X_width (c : Z) : (2 <= String.length (Py.format_02X c))%nat.
Proof.
  unfold Py.format_02X.
  set (sign := if c <? 0 then "-" else "").
  set (digits := Py.hex_upper (N.to_hex_uint (Z.to_N (Z.abs c)))).
  pose proof (len_append sign
                (Py.zeros (2 - String.length sign - String.length digits) ++ digits))
    as H1.
  pose proof (len_append
                (Py.zeros (2 - String.length sign - String.length digits)) digits)
    as H2.
  unfold Py.len in H1, H2. rewrite length_zeros in H2. lia.
Qed.

(** * The claims *)

(** C1: a grid of 7 rows and [C] columns gives a window of exactly [7 * C]
    days, the days 0 .. 7*C - 1, each visited once; a day [d] goes to the
    cell of row [d mod 7] and column [d div 7], which exists; every cell is
    the cell of the day [column * 7 + row], and of no other day; the date of
    day [d] is [d] days after the beginning, so different days have
    different dates. *)
Theorem day_cell_bijection (grid : list string) (C : Z) :
  List.length grid = 7%nat ->
  (forall row, In row grid -> Py.len row = C) ->
  num_days_of grid = Ok (7 * C)
  /\ List.length (Py.range (7 * C)) = Z.to_nat (7 * C)
  /\ NoDup (Py.range (7 * C))
  /\ (forall d, In d (Py.range (7 * C)) <-> 0 <= d < 7 * C)
  /\ (forall d, 0 <= d < 7 * C ->
        coords d = (d mod 7, d / 7)
        /\ 0 <= d mod 7 < 7 /\ 0 <= d / 7 < C
        /\ (d / 7) * 7 + d mod 7 = d
        /\ exists c, cell grid d = Ok c)
  /\ (forall y x, 0 <= y < 7 -> 0 <= x < C ->
        0 <= x * 7 + y < 7 * C /\ coords (x * 7 + y) = (y, x))
  /\ (forall d d', 0 <= d < 7 * C -> 0 <= d' < 7 * C ->
        coords d = coords d' -> d = d')
  /\ (forall beginning d t,
        add_days beginning d = Ok t -> ordinal t = ordinal beginning + d)
  /\ (forall beginning d d' t,
        add_days beginning d = Ok t -> add_days beginning d' = Ok t -> d = d').
Proof.
  intros H7 HC.
  split; [now apply num_days_of_grid|].
  split; [apply length_range|].
  split; [apply NoDup_range|].
  split; [intros d; apply in_range|].
  split.
  { intros d Hd. split; [reflexivity|].
    split; [apply Z.mod_pos_bound; lia|].
    split; [split; [apply Z.div_pos; lia | apply Z.div_lt_upper_bound; lia]|].
    split; [pose proof (Z.div_mod d 7); lia|].
    destruct (cell_in_grid grid C d H7 HC Hd) as [row [c [_ [_ Hc]]]].
    now exists c. }
  split.
  { intros y x Hy Hx. split; [lia|].
    unfold coords. f_equal.
    - rewrite Z.add_comm, Z.mod_add by lia. apply Z.mod_small. lia.
    - rewrite Z.add_comm, Z.div_add by lia. rewrite Z.div_small by lia. lia. }
  split.
  { intros d d' Hd Hd' E. unfold coords in E. injection E as Ey Ex.
    pose proof (Z.div_mod d 7). pose proof (Z.div_mod d' 7). lia. }
  split.
  - intros beginning d t Ht. apply add_days_inv in Ht.
    destruct Ht as [-> _]. reflexivity.
  - intros beginning d d' t Hd Hd'.
    apply add_days_inv in Hd, Hd'. destruct Hd as [-> _], Hd' as [E _].
    apply (f_equal ordinal) in E. cbn [shift ordinal] in E. lia.
Qed.

Lemma day_cell_bijection_witness :
  num_days_of ["#.#"; "..."; "###"; "#.."; "..#"; ".#."; "##."] = Ok (7 * 3)
  /\ coords 17 = (3, 2)
  /\ exists c, cell ["#.#"; "..."; "###"; "#.."; "..#"; ".#."; "##."] 17 = Ok c.
Proof.
  assert (H7 : List.length ["#.#"; "..."; "###"; "#.."; "..#"; ".#."; "##."] = 7%nat)
    by reflexivity.
  assert (HC : forall row,
             In row ["#.#"; "..."; "###"; "#.."; "..#"; ".#."; "##."] -> Py.len row = 3).
  { intros row Hin. simpl in Hin.
    repeat (destruct Hin as [<-|Hin]; [reflexivity|]). contradiction. }
  pose proof (day_cell_bijection _ 3 H7 HC) as [Hn [_ [_ [_ [Hd _]]]]].
  split; [exact Hn|].
  assert (H17 : 0 <= 17 < 7 * 3) by lia.
  destruct (Hd 17 H17) as [Hc [_ [_ [_ Hcell]]]].
  split; [exact Hc | exact Hcell].
Defined.

(** C2, as the code has it: for every start date from 0001-01-07 on, the
    beginning of the window is the start date at noon, with no seconds and
    no fraction, moved back by its weekday index counted from Sunday; it is a
    Sunday, the last one on or before the start date. *)
Theorem window_beginning_sunday (start : datetime) :
  valid start -> 7 <= ordinal start ->
  exists beginning,
    window_beginning start = Ok beginning
    /\ weekday beginning = SUNDAY
    /\ hour beginning = 12 /\ minute beginning = 0
    /\ second beginning = 0 /\ microsecond beginning = 0
    /\ tzinfo beginning = tzinfo start
    /\ ordinal beginning
       = ordinal start - (weekday (replace start 12 0 0 0) + 1) mod 7
    /\ ordinal beginning <= ordinal start < ordinal beginning + 7.
Proof.
  intros [[Hlo Hhi] _] H7. apply window_beginning_spec. lia.
Qed.

Lemma window_beginning_sunday_witness :
  valid (of_ymd 2023 1 4 9 30 15)
  /\ 7 <= ordinal (of_ymd 2023 1 4 9 30 15)
  /\ exists beginning,
       window_beginning (of_ymd 2023 1 4 9 30 15) = Ok beginning
       /\ weekday beginning = SUNDAY
       /\ hour beginning = 12 /\ minute beginning = 0
       /\ second beginning = 0 /\ microsecond beginning = 0
       /\ tzinfo beginning = tzinfo (of_ymd 2023 1 4 9 30 15)
       /\ ordinal beginning
          = ordinal (of_ymd 2023 1 4 9 30 15)
            - (weekday (replace (of_ymd 2023 1 4 9 30 15) 12 0 0 0) + 1) mod 7
       /\ ordinal beginning <= ordinal (of_ymd 2023 1 4 9 30 15) < ordinal beginning + 7.
Proof.
  assert (Hv : valid (of_ymd 2023 1 4 9 30 15)).
  { unfold valid. vm_compute. intuition discriminate. }
  assert (H7 : 7 <= ordinal (of_ymd 2023 1 4 9 30 15)).
  { vm_compute. discriminate. }
  split; [exact Hv|]. split; [exact H7|].
  exact (window_beginning_sunday _ Hv H7).
Defined.

(** C2 as stated fails for the first six days of the calendar: 0001-01-01 is
    a valid date, a Monday, and moving it back by one day leaves the range of
    [datetime]; the subtraction raises and there is no beginning. *)
Lemma window_beginning_counterexample :
  valid (of_ymd 1 1 1 0 0 0)
  /\ weekday (replace (of_ymd 1 1 1 0 0 0) 12 0 0 0) = 0
  /\ window_beginning (of_ymd 1 1 1 0 0 0) = Raise OverflowError.
Proof.
  split; [unfold valid; vm_compute; intuition discriminate|].
  split; vm_compute; reflexivity.
Qed.

(** C3: for every message made of printable ASCII characters only, with or
    without inversion, the grid builder returns a grid of exactly 7 rows, and
    all its rows have the same length. *)
Theorem grid_seven_rows_equal_length (message : Py.ustr) (inv : bool) :
  Forall printable message ->
  exists grid,
    build_grid get_font message inv = Ok grid
    /\ List.length grid = 7%nat
    /\ forall r1 r2, In r1 grid -> In r2 grid -> Py.len r1 = Py.len r2.
Proof.
  intros Hm.
  destruct (build_grid_ok get_font font_length font_glyphs_ok message inv Hm)
    as [grid [Hg [H7 Hall]]].
  exists grid. split; [exact Hg|]. split; [exact H7|].
  rewrite Forall_forall in Hall.
  intros r1 r2 H1 H2. rewrite (Hall r1 H1), (Hall r2 H2). reflexivity.
Qed.

Lemma grid_seven_rows_equal_length_witness :
  Forall printable [72; 105]
  /\ exists grid,
       build_grid get_font [72; 105] true = Ok grid
       /\ List.length grid = 7%nat
       /\ forall r1 r2, In r1 grid -> In r2 grid -> Py.len r1 = Py.len r2.
Proof.
  assert (H : Forall printable [72; 105]).
  { repeat constructor; unfold ASCII_PRINTABLE_LAST, ASCII_PRINTABLE_FIRST; lia. }
  split; [exact H|].
  exact (grid_seven_rows_equal_length [72; 105] true H).
Defined.

(** C4, as the code has it: for every printable message, every row of the
    grid has as many columns as the glyphs of its characters together, plus
    one separator column per character, plus one: the row starts with a
    margin column and every glyph is followed by a separator. *)
Theorem grid_columns (message : Py.ustr) (inv : bool) :
  Forall printable message ->
  exists grid,
    build_grid get_font message inv = Ok grid
    /\ forall row, In row grid ->
         Py.len row
         = sum_columns get_font message + Z.of_nat (List.length message) + 1.
Proof.
  intros Hm.
  destruct (build_grid_ok get_font font_length font_glyphs_ok message inv Hm)
    as [grid [Hg [_ Hall]]].
  exists grid. split; [exact Hg|].
  rewrite Forall_forall in Hall. exact Hall.
Qed.

Lemma grid_columns_witness :
  Forall printable [65]
  /\ exists grid,
       build_grid get_font [65] false = Ok grid
       /\ forall row, In row grid ->
            Py.len row = sum_columns get_font [65] + Z.of_nat (List.length [65]) + 1.
Proof.
  assert (H : Forall printable [65]).
  { repeat constructor; unfold ASCII_PRINTABLE_LAST, ASCII_PRINTABLE_FIRST; lia. }
  split; [exact H|].
  exact (grid_columns [65] false H).
Defined.

(** C4 as stated fails: the grid of the message A has 6 columns, and the
    glyph of A has 4, which with one separator makes 5. *)
Lemma grid_columns_counterexample :
  build_grid get_font [65] false
  = Ok ["......"; "..##.."; ".#..#."; ".####."; ".#..#."; ".#..#."; "......"]
  /\ sum_columns get_font [65] = 4
  /\ Py.len "......" <> sum_columns get_font [65] + Z.of_nat (List.length [65]).
Proof.
  split; [vm_compute; reflexivity|].
  split; [vm_compute; reflexivity|].
  vm_compute. discriminate.
Qed.

(** C5: in a run that is not a dry run and passes the checks, the commits
    are exactly [n] commits on each day that is on, in order, where [n] is
    [min_commits] plus a number drawn with [randrange] from
    [0, max_commits - min_commits + 1), a new draw for every such day; so
    [min_commits <= n <= max_commits], and every count in that range comes
    from exactly one outcome of the draw, which makes the count uniform when
    the draw is.  The run ends normally when the window fits the calendar. *)
Theorem commit_counts_in_bounds (R : RandomSource) (a : args) (g : rng R)
    (s : datetime) :
  message_of a <> [] -> Forall printable (message_of a) -> bounds_ok a ->
  start a = Some s -> dry_run a = false ->
  let days := on_days (message_of a) (invert a) s in
  let counts := fst (draw_counts R a (List.length days) g) in
  commit_dates (fst (run R a g)) = expand days counts
  /\ List.length counts = List.length days
  /\ Forall (fun n => min_commits a <= n <= max_commits a) counts
  /\ (forall n, min_commits a <= n <= max_commits a ->
      exists r, (0 <= r < max_commits a - min_commits a + 1
                 /\ min_commits a + r = n)
                /\ forall r', min_commits a + r' = n -> r' = r)
  /\ (forall r, 0 <= r < max_commits a - min_commits a + 1 ->
      min_commits a <= min_commits a + r <= max_commits a)
  /\ (7 <= ordinal s ->
      ordinal s + 7 * grid_width (message_of a) - 1 <= MAXORDINAL ->
      exists g', snd (run R a g) = Ok (tt, g')).
Proof.
  intros Hm Hp Hb Hs Hdry days counts.
  destruct (run_valid R a g s Hm Hp Hb Hs) as [Hc Ho].
  rewrite Hdry in Hc, Ho.
  split; [exact Hc|].
  split; [apply draw_counts_length|].
  split; [now apply draw_counts_range|].
  split.
  { intros n Hn. exists (n - min_commits a). split; [lia | intros; lia]. }
  split; [intros; lia|].
  intros H7 Hfit. eexists. now apply Ho.
Qed.

Lemma commit_counts_in_bounds_witness :
  let a := args_of 30 35 false [33] in
  let s := of_ymd 2023 1 1 0 0 0 in
  let days := on_days (message_of a) (invert a) s in
  let counts := fst (draw_counts cycle_source a (List.length days) 0%nat) in
  (message_of a <> [] /\ Forall printable (message_of a) /\ bounds_ok a
   /\ start a = Some s /\ dry_run a = false)
  /\ commit_dates (fst (run cycle_source a 0%nat)) = expand days counts
  /\ counts = [30; 31; 32; 33]
  /\ Forall (fun n => min_commits a <= n <= max_commits a) counts.
Proof.
  cbv zeta.
  assert (Hm : message_of (args_of 30 35 false [33]) <> []) by discriminate.
  assert (Hp : Forall printable (message_of (args_of 30 35 false [33]))).
  { repeat constructor; unfold ASCII_PRINTABLE_LAST, ASCII_PRINTABLE_FIRST; lia. }
  assert (Hb : bounds_ok (args_of 30 35 false [33])) by (unfold bounds_ok; cbn; lia).
  pose proof (commit_counts_in_bounds cycle_source (args_of 30 35 false [33]) 0%nat
                (of_ymd 2023 1 1 0 0 0) Hm Hp Hb eq_refl eq_refl) as H.
  cbv zeta in H. destruct H as [Hc [_ [Hr _]]].
  split; [exact (conj Hm (conj Hp (conj Hb (conj eq_refl eq_refl))))|].
  split; [exact Hc|].
  split; [vm_compute; reflexivity | exact Hr].
Defined.

(** C6, as the code has it: at 0 percent the first of the 25 slots is
    already filled, since [0 * 4 <= 0], and at 100 percent all 25 are. *)
Theorem progress_bar_ends :
  progress (inject_Z 0) = "[=                        ] 0%"
  /\ progress (inject_Z 100) = "[=========================] 100%"
  /\ forall num_days, progress (percent_of 0 (Z.pos num_days)) = progress (inject_Z 0).
Proof.
  split; [vm_compute; reflexivity|].
  split; [vm_compute; reflexivity|].
  intros num_days. vm_compute. reflexivity.
Qed.

(** C6 as stated fails at 0 percent: the bar is not empty. *)
Lemma progress_bar_counterexample :
  progress (inject_Z 0) <> "[                         ] 0%".
Proof. vm_compute. discriminate. Qed.

(** C7, as the code has it: a message with a character outside 0x20..0x7E
    is rejected before anything else happens: usage is printed, exit status
    1, no commit.  With bounds that pass their checks the message on the
    error stream lists every such character, in order, as [0x] and its code
    point in capital hexadecimal digits, padded to at least two digits:
    exactly two for a code point below 0x100, more above. *)
Theorem invalid_message_rejected (R : RandomSource) (a : args) (g : rng R) :
  Exists (fun c => ~ printable c) (message_of a) ->
  (exists msg, run R a g = ([PrintUsage; Eprint msg], Raise (SystemExit 1)))
  /\ exit_status (snd (run R a g)) = 1
  /\ commit_dates (fst (run R a g)) = []
  /\ (bounds_ok a ->
      run R a g
      = ([PrintUsage;
          Eprint ("Unsupported characters in message: "
                  ++ Py.join " "
                       (map (fun c => "0x" ++ Py.format_02X c)
                          (filter (fun c => negb (printableb c)) (message_of a))))],
         Raise (SystemExit 1)))
  /\ (forall c, 0 <= c < 256 ->
      Py.format_02X c
      = String (hex_digit (c / 16)) (String (hex_digit (c mod 16)) ""))
  /\ (forall c, (2 <= String.length (Py.format_02X c))%nat).
Proof.
  intros Hex.
  assert (Hinv : invalid_chars (message_of a) <> []).
  { intros E. apply invalid_chars_nil in E. rewrite Forall_forall in E.
    apply Exists_exists in Hex. destruct Hex as [c [Hin Hc]]. auto. }
  assert (Hm : message_of a <> []).
  { intros E. rewrite E in Hinv. now apply Hinv. }
  destruct (run_rejected R a g) as [msg Hr]; [now right; right|].
  split; [now exists msg|].
  split; [now rewrite Hr|].
  split; [now rewrite Hr|].
  split.
  { intros Hb. rewrite <- invalid_chars_filter. now apply run_invalid_chars. }
  split; [apply format_02X_byte | apply format_02X_width].
Qed.

Lemma invalid_message_rejected_witness :
  Exists (fun c => ~ printable c) (message_of (args_of 30 35 false [72; 7; 105]))
  /\ bounds_ok (args_of 30 35 false [72; 7; 105])
  /\ run cycle_source (args_of 30 35 false [72; 7; 105]) 0%nat
     = ([PrintUsage; Eprint "Unsupported characters in message: 0x07"],
        Raise (SystemExit 1)).
Proof.
  assert (Hex : Exists (fun c => ~ printable c)
                  (message_of (args_of 30 35 false [72; 7; 105]))).
  { apply Exists_cons_tl, Exists_cons_hd.
    unfold printable, ASCII_PRINTABLE_FIRST. lia. }
  assert (Hb : bounds_ok (args_of 30 35 false [72; 7; 105]))
    by (unfold bounds_ok; cbn; lia).
  split; [exact Hex|]. split; [exact Hb|].
  exact (proj1 (proj2 (proj2 (proj2
           (invalid_message_rejected cycle_source
              (args_of 30 35 false [72; 7; 105]) 0%nat Hex)))) Hb).
Defined.

(** C7 as stated fails on a character above 0xFF: the euro sign, code point
    0x20AC, is reported with four digits. *)
Lemma invalid_message_counterexample :
  ~ printable 8364
  /\ run cycle_source (args_of 30 35 false [8364]) 0%nat
     = ([PrintUsage; Eprint "Unsupported characters in message: 0x20AC"],
        Raise (SystemExit 1))
  /\ String.length (Py.format_02X 8364) = 4%nat.
Proof.
  split; [unfold printable, ASCII_PRINTABLE_LAST; lia|].
  split; vm_compute; reflexivity.
Qed.

(** C8, as the code has it: bounds with [min < 0], [max < 1] or [min > max]
    are rejected: usage is printed, one message goes to the error stream,
    the exit status is 1 and no commit is created.  The checks run in the
    order: empty message, [min < 0], [max < 1], [min > max], and the text is
    that of the first check that fails: for a message that is not empty it
    names [MIN_COMMITS] when [min < 0], else [MAX_COMMITS] when [max < 1],
    else both values; for an empty message it is the empty-message text,
    whatever the bounds. *)
Theorem bounds_rejected (R : RandomSource) (a : args) (g : rng R) :
  (min_commits a < 0 \/ max_commits a < 1 \/ max_commits a < min_commits a ->
   exists msg,
     run R a g = ([PrintUsage; Eprint msg], Raise (SystemExit 1))
     /\ exit_status (snd (run R a g)) = 1
     /\ commit_dates (fst (run R a g)) = [])
  /\ (message_of a <> [] -> min_commits a < 0 ->
      run R a g
      = ([PrintUsage; Eprint "MIN_COMMITS must be at least 0"],
         Raise (SystemExit 1)))
  /\ (message_of a <> [] -> 0 <= min_commits a -> max_commits a < 1 ->
      run R a g
      = ([PrintUsage; Eprint "MAX_COMMITS must be at least 1"],
         Raise (SystemExit 1)))
  /\ (message_of a <> [] -> 0 <= min_commits a -> 1 <= max_commits a ->
      max_commits a < min_commits a ->
      run R a g
      = ([PrintUsage;
          Eprint ("MIN_COMMITS (" ++ Py.str_of_int (min_commits a)
                  ++ ") cannot be more than MAX_COMMITS ("
                  ++ Py.str_of_int (max_commits a) ++ ")")],
         Raise (SystemExit 1)))
  /\ (message_of a = [] ->
      run R a g
      = ([PrintUsage; Eprint "Empty message is invalid"], Raise (SystemExit 1))).
Proof.
  split; [|split; [|split; [|split]]].
  - intros H.
    destruct (run_rejected R a g) as [msg Hr].
    { right. left. unfold bounds_ok. lia. }
    exists msg. rewrite Hr. now repeat split.
  - apply run_min_negative.
  - apply run_max_below_one.
  - apply run_min_above_max.
  - apply run_empty_message.
Qed.

Lemma bounds_rejected_witness :
  run cycle_source (args_of (-1) 35 false [72; 105]) 0%nat
  = ([PrintUsage; Eprint "MIN_COMMITS must be at least 0"], Raise (SystemExit 1))
  /\ run cycle_source (args_of 30 0 false [72; 105]) 0%nat
     = ([PrintUsage; Eprint "MAX_COMMITS must be at least 1"], Raise (SystemExit 1))
  /\ run cycle_source (args_of 10 5 false [72; 105]) 0%nat
     = ([PrintUsage; Eprint "MIN_COMMITS (10) cannot be more than MAX_COMMITS (5)"],
        Raise (SystemExit 1)).
Proof.
  assert (Hm : forall min max, message_of (args_of min max false [72; 105]) <> [])
    by (intros; discriminate).
  split; [|split].
  - apply (proj1 (proj2 (bounds_rejected cycle_source
                           (args_of (-1) 35 false [72; 105]) 0%nat)));
      [apply Hm | cbn; lia].
  - apply (proj1 (proj2 (proj2 (bounds_rejected cycle_source
                                  (args_of 30 0 false [72; 105]) 0%nat))));
      [apply Hm | cbn; lia | cbn; lia].
  - apply (proj1 (proj2 (proj2 (proj2 (bounds_rejected cycle_source
                                         (args_of 10 5 false [72; 105]) 0%nat)))));
      [apply Hm | cbn; lia | cbn; lia | cbn; lia].
Defined.

(** C8 as stated fails when the message is empty: with [min = -1] the run is
    rejected, but the text on the error stream is the empty-message one and
    names no bound. *)
Lemma bounds_rejected_counterexample :
  min_commits (args_of (-1) 35 false []) < 0
  /\ message_of (args_of (-1) 35 false []) = []
  /\ run cycle_source (args_of (-1) 35 false []) 0%nat
     = ([PrintUsage; Eprint "Empty message is invalid"], Raise (SystemExit 1))
  /\ "Empty message is invalid" <> "MIN_COMMITS must be at least 0".
Proof.
  split; [cbn; lia|].
  split; [reflexivity|].
  split; [vm_compute; reflexivity | discriminate].
Qed.

(** C9: the font has exactly 95 entries; for every code point from 32 to 126
    the index [code point - 32] lies inside the table and yields its entry,
    and every row index 0..6 lies inside that entry; so for a message that
    passed validation the grid builder never raises. *)
Theorem font_lookup_total :
  List.length get_font = 95%nat
  /\ (forall c, printable c ->
        0 <= c - ASCII_PRINTABLE_FIRST < Z.of_nat (List.length get_font)
        /\ exists glyph,
             Py.index get_font (c - ASCII_PRINTABLE_FIRST) = Ok glyph
             /\ nth_error get_font (Z.to_nat (c - ASCII_PRINTABLE_FIRST)) = Some glyph
             /\ List.length glyph = 7%nat
             /\ forall row, 0 <= row < 7 ->
                  exists piece,
                    Py.index glyph row = Ok piece
                    /\ nth_error glyph (Z.to_nat row) = Some piece)
  /\ (forall message inv,
        invalid_chars message = [] ->
        exists grid, build_grid get_font message inv = Ok grid).
Proof.
  split; [exact font_length|]. split.
  - intros c Hc. split.
    + rewrite font_length. unfold printable, ASCII_PRINTABLE_FIRST, ASCII_PRINTABLE_LAST in *. lia.
    + destruct (glyph_lookup get_font font_length font_glyphs_ok c Hc)
        as [glyph [Hi [Hn Hok]]].
      exists glyph. split; [exact Hi|]. split; [exact Hn|].
      assert (H7 : List.length glyph = 7%nat).
      { unfold glyph_ok in Hok. destruct glyph; [discriminate|].
        apply andb_true_iff in Hok. destruct Hok as [H7 _].
        now apply Nat.eqb_eq in H7. }
      split; [exact H7|].
      intros row Hrow. apply index_in_bounds. rewrite H7. lia.
  - intros message inv Hv. apply invalid_chars_nil in Hv.
    destruct (build_grid_ok get_font font_length font_glyphs_ok message inv Hv)
      as [grid [Hg _]].
    now exists grid.
Qed.

Lemma font_lookup_total_witness :
  printable 126
  /\ exists glyph,
       Py.index get_font (126 - ASCII_PRINTABLE_FIRST) = Ok glyph
       /\ nth_error get_font (Z.to_nat (126 - ASCII_PRINTABLE_FIRST)) = Some glyph
       /\ List.length glyph = 7%nat
       /\ forall row, 0 <= row < 7 ->
            exists piece,
              Py.index glyph row = Ok piece
              /\ nth_error glyph (Z.to_nat row) = Some piece.
Proof.
  assert (H : printable 126).
  { unfold printable, ASCII_PRINTABLE_LAST, ASCII_PRINTABLE_FIRST; lia. }
  split; [exact H|].
  exact (proj2 (proj1 (proj2 font_lookup_total) 126 H)).
Defined.

(** C10, as the code has it: the days that are on and their dates are a
    function of the message, the inversion flag and the start date alone;
    two runs that share these three, pass the checks and are not dry runs
    commit only on those days, each with counts inside its own bounds,
    whatever the bounds and the draws; the dates that receive commits are
    the same in both when both minimums are at least 1. *)
Theorem commit_days_deterministic (R1 R2 : RandomSource) (a1 a2 : args)
    (g1 : rng R1) (g2 : rng R2) (s : datetime) :
  message_of a1 = message_of a2 -> invert a1 = invert a2 ->
  start a1 = Some s -> start a2 = Some s ->
  message_of a1 <> [] -> Forall printable (message_of a1) ->
  bounds_ok a1 -> bounds_ok a2 ->
  dry_run a1 = false -> dry_run a2 = false ->
  let days := on_days (message_of a1) (invert a1) s in
  exists counts1 counts2,
    commit_dates (fst (run R1 a1 g1)) = expand days counts1
    /\ commit_dates (fst (run R2 a2 g2)) = expand days counts2
    /\ List.length counts1 = List.length days
    /\ List.length counts2 = List.length days
    /\ Forall (fun n => min_commits a1 <= n <= max_commits a1) counts1
    /\ Forall (fun n => min_commits a2 <= n <= max_commits a2) counts2
    /\ (forall d, In d (commit_dates (fst (run R1 a1 g1))) -> In d days)
    /\ (forall d, In d (commit_dates (fst (run R2 a2 g2))) -> In d days)
    /\ (1 <= min_commits a1 -> 1 <= min_commits a2 ->
        forall d, In d (commit_dates (fst (run R1 a1 g1)))
                  <-> In d (commit_dates (fst (run R2 a2 g2)))).
Proof.
  intros Em Ei Hs1 Hs2 Hm Hp Hb1 Hb2 Hd1 Hd2 days.
  assert (Hm2 : message_of a2 <> []) by now rewrite <- Em.
  assert (Hp2 : Forall printable (message_of a2)) by now rewrite <- Em.
  destruct (run_valid R1 a1 g1 s Hm Hp Hb1 Hs1) as [Hc1 _].
  destruct (run_valid R2 a2 g2 s Hm2 Hp2 Hb2 Hs2) as [Hc2 _].
  rewrite Hd1 in Hc1. rewrite Hd2, <- Em, <- Ei in Hc2.
  fold days in Hc1, Hc2.
  set (counts1 := fst (draw_counts R1 a1 (List.length days) g1)) in *.
  set (counts2 := fst (draw_counts R2 a2 (List.length days) g2)) in *.
  assert (Hl1 : List.length counts1 = List.length days) by apply draw_counts_length.
  assert (Hl2 : List.length counts2 = List.length days) by apply draw_counts_length.
  assert (Hr1 : Forall (fun n => min_commits a1 <= n <= max_commits a1) counts1)
    by now apply draw_counts_range.
  assert (Hr2 : Forall (fun n => min_commits a2 <= n <= max_commits a2) counts2)
    by now apply draw_counts_range.
  exists counts1, counts2. rewrite Hc1, Hc2.
  split; [reflexivity|]. split; [reflexivity|].
  split; [exact Hl1|]. split; [exact Hl2|].
  split; [exact Hr1|]. split; [exact Hr2|].
  split; [intros d; apply in_expand|].
  split; [intros d; apply in_expand|].
  intros H1 H2 d. split; intros Hin; apply in_expand in Hin;
    apply in_expand_positive; auto.
  - eapply Forall_impl; [|exact Hr2]. cbv beta. intros; lia.
  - eapply Forall_impl; [|exact Hr1]. cbv beta. intros; lia.
Qed.

Lemma commit_days_deterministic_witness :
  let a1 := args_of 1 2 false [33] in
  let a2 := args_of 30 35 false [33] in
  let s := of_ymd 2023 1 1 0 0 0 in
  (bounds_ok a1 /\ bounds_ok a2 /\ Forall printable (message_of a1))
  /\ forall d, In d (commit_dates (fst (run low_source a1 tt)))
               <-> In d (commit_dates (fst (run cycle_source a2 0%nat))).
Proof.
  cbv zeta.
  assert (Hp : Forall printable (message_of (args_of 1 2 false [33]))).
  { repeat constructor; unfold ASCII_PRINTABLE_LAST, ASCII_PRINTABLE_FIRST; lia. }
  assert (Hb1 : bounds_ok (args_of 1 2 false [33])) by (unfold bounds_ok; cbn; lia).
  assert (Hb2 : bounds_ok (args_of 30 35 false [33])) by (unfold bounds_ok; cbn; lia).
  assert (Hm : message_of (args_of 1 2 false [33]) <> []) by discriminate.
  split; [exact (conj Hb1 (conj Hb2 Hp))|].
  destruct (commit_days_deterministic low_source cycle_source
              (args_of 1 2 false [33]) (args_of 30 35 false [33]) tt 0%nat
              (of_ymd 2023 1 1 0 0 0)
              eq_refl eq_refl eq_refl eq_refl Hm Hp Hb1 Hb2 eq_refl eq_refl)
    as [counts1 [counts2 H]].
  apply H; cbn; lia.
Defined.

(** C10 as stated fails when the minimum is 0: with the same command line,
    one run draws 0 on every day and creates no commit at all, another draws
    1 and commits on the four days that are on. *)
Lemma commit_days_counterexample :
  bounds_ok (args_of 0 1 false [33])
  /\ commit_dates (fst (run low_source (args_of 0 1 false [33]) tt)) = []
  /\ commit_dates (fst (run high_source (args_of 0 1 false [33]) tt))
     = [shift (of_ymd 2023 1 1 12 0 0) 8; shift (of_ymd 2023 1 1 12 0 0) 9;
        shift (of_ymd 2023 1 1 12 0 0) 10; shift (of_ymd 2023 1 1 12 0 0) 12].
Proof.
  split; [unfold bounds_ok; cbn; lia|].
  split; vm_compute; reflexivity.
Qed.

(** * Further properties of the program *)

(** ** Runs that stop before the loop *)

(** The steps that take a run with a good message and good bounds through
    the five checks of [main]. *)
Ltac next_check :=
  rewrite ?trace_bind_when_false, ?outcome_bind_when_false; cbv beta.

Ltac pass_checks a Hm Hmin Hmax Hle Hp :=
  unfold main; cbv zeta;
  rewrite (message_nonempty_test a Hm); next_check;
  replace (min_commits a <? 0) with false by lia; next_check;
  replace (max_commits a <? 1) with false by lia; next_check;
  replace (max_commits a <? min_commits a) with false by lia; next_check;
  rewrite (proj2 (invalid_chars_nil (message_of a)) Hp);
  cbn [List.length Z.of_nat Z.ltb Z.compare]; next_check.

Lemma ujoin_nil (sep : Py.ustr) (words : list Py.ustr) :
  Py.ujoin sep words = [] ->
  words = [] \/ words = [[]] \/ (sep = [] /\ Forall (fun w => w = []) words).
Proof.
  induction words as [|w rest IH]; [now left|].
  cbn [Py.ujoin]. destruct rest as [|w' rest'].
  - intros ->. right. now left.
  - intros E. apply app_eq_nil in E. destruct E as [-> E].
    apply app_eq_nil in E. destruct E as [-> E].
    right. right. split; [reflexivity|]. constructor; [reflexivity|].
    destruct (IH E) as [H|[H|[_ H]]]; try discriminate.
    + rewrite H. repeat constructor.
    + exact H.
Qed.

Section EarlyStops.

Context (R : RandomSource) (a : args) (g : rng R).

Hypothesis message_nonempty : message_of a <> [].
Hypothesis message_printable : Forall printable (message_of a).
Hypothesis bounds : bounds_ok a.

Lemma run_start_rejected :
  start a = None -> run R a g = ([], Raise ValueError).
Proof.
  intros Hs. destruct bounds as (Hmin & Hmax & Hle).
  destruct (build_grid_ok get_font font_length font_glyphs_ok
              (message_of a) (invert a) message_printable)
    as [grid [Hg [H7 Hall]]].
  rewrite Forall_forall in Hall.
  pose proof (num_days_of_grid grid _ H7 Hall) as Hn.
  unfold run. rewrite (run_pair (main a) g).
  pass_checks a message_nonempty Hmin Hmax Hle message_printable.
  rewrite Hg, outcome_bind_lift_ok, trace_bind_lift_ok.
  rewrite Hn, outcome_bind_lift_ok, trace_bind_lift_ok.
  rewrite Hs, outcome_bind_lift_raise, trace_bind_lift_raise.
  reflexivity.
Qed.

Lemma run_window_overflow (s : datetime) :
  start a = Some s ->
  window_beginning s = Raise OverflowError
  \/ (exists b, window_beginning s = Ok b
                /\ MAXORDINAL < ordinal b + (7 * grid_width (message_of a) - 1)) ->
  run R a g = ([], Raise OverflowError).
Proof.
  intros Hs Hover. destruct bounds as (Hmin & Hmax & Hle).
  destruct (build_grid_ok get_font font_length font_glyphs_ok
              (message_of a) (invert a) message_printable)
    as [grid [Hg [H7 Hall]]].
  rewrite Forall_forall in Hall. fold (grid_width (message_of a)) in Hall.
  pose proof (num_days_of_grid grid _ H7 Hall) as Hn.
  unfold run. rewrite (run_pair (main a) g).
  pass_checks a message_nonempty Hmin Hmax Hle message_printable.
  rewrite Hg, outcome_bind_lift_ok, trace_bind_lift_ok.
  rewrite Hn, outcome_bind_lift_ok, trace_bind_lift_ok.
  rewrite Hs, outcome_bind_lift_ok, trace_bind_lift_ok.
  destruct Hover as [Eb|[b [Eb Hb]]]; rewrite Eb.
  - now rewrite outcome_bind_lift_raise, trace_bind_lift_raise.
  - rewrite outcome_bind_lift_ok, trace_bind_lift_ok.
    assert (Ee : add_days b (7 * grid_width (message_of a) - 1) = Raise OverflowError).
    { unfold add_days.
      now replace ((0 <? ordinal b + (7 * grid_width (message_of a) - 1))
                   && (ordinal b + (7 * grid_width (message_of a) - 1) <=? MAXORDINAL))%bool
        with false by lia. }
    rewrite Ee. now rewrite outcome_bind_lift_raise, trace_bind_lift_raise.
Qed.

End EarlyStops.

(** X1: a run whose message is empty prints usage and the empty-message
    text and exits with status 1, whatever the bounds are; the joined
    message is empty only for a single empty word (or no word at all), two
    empty words already give a space. *)
Theorem empty_message_rejected (R : RandomSource) (a : args) (g : rng R) :
  (message_of a = [] ->
   run R a g = ([PrintUsage; Eprint "Empty message is invalid"], Raise (SystemExit 1)))
  /\ (message_of a = [] <-> message_words a = [] \/ message_words a = [[]]).
Proof.
  split; [apply run_empty_message|].
  unfold message_of. split.
  - intros E. destruct (ujoin_nil _ _ E) as [H|[H|[H _]]]; auto. discriminate.
  - intros [->| ->]; reflexivity.
Qed.

Lemma empty_message_rejected_witness :
  message_of (args_of (-5) 0 false []) = []
  /\ run cycle_source (args_of (-5) 0 false []) 0%nat
     = ([PrintUsage; Eprint "Empty message is invalid"], Raise (SystemExit 1)).
Proof.
  split; [reflexivity|].
  exact (proj1 (empty_message_rejected cycle_source (args_of (-5) 0 false []) 0%nat)
           eq_refl).
Defined.

(** X2: with a start text that [fromisoformat] rejects, a run that passes
    the checks raises [ValueError] before it prints anything or creates a
    commit. *)
Theorem start_rejected (R : RandomSource) (a : args) (g : rng R) :
  message_of a <> [] -> Forall printable (message_of a) -> bounds_ok a ->
  start a = None ->
  run R a g = ([], Raise ValueError) /\ exit_status (snd (run R a g)) = 1.
Proof.
  intros Hm Hp Hb Hs. rewrite (run_start_rejected R a g Hm Hp Hb Hs). now split.
Qed.

Lemma start_rejected_witness :
  run cycle_source args_unparsed 0%nat = ([], Raise ValueError)
  /\ exit_status (snd (run cycle_source args_unparsed 0%nat)) = 1.
Proof.
  apply (start_rejected cycle_source args_unparsed 0%nat).
  - discriminate.
  - repeat constructor; unfold ASCII_PRINTABLE_LAST, ASCII_PRINTABLE_FIRST; lia.
  - unfold bounds_ok; cbn; lia.
  - reflexivity.
Defined.

Lemma window_beginning_early (s : datetime) :
  1 <= ordinal s < 7 -> window_beginning s = Raise OverflowError.
Proof.
  intros Hs. unfold window_beginning, sub_days, add_days, weekday.
  cbn [ordinal replace].
  pose proof (Z.div_mod (ordinal s + 6) 7).
  pose proof (Z.mod_pos_bound (ordinal s + 6) 7).
  pose proof (Z.div_mod ((ordinal s + 6) mod 7 + 1) 7).
  pose proof (Z.mod_pos_bound ((ordinal s + 6) mod 7 + 1) 7).
  replace (0 <? ordinal s + - (((ordinal s + 6) mod 7 + 1) mod 7)) with false by lia.
  reflexivity.
Qed.

(** X3: when the window does not fit the calendar, a run that passes the
    checks raises [OverflowError] before it prints anything or creates a
    commit: the start lies in the first six days of year 1, or the last day
    of the window would lie after 9999-12-31. *)
Theorem window_overflow (R : RandomSource) (a : args) (g : rng R) (s : datetime) :
  message_of a <> [] -> Forall printable (message_of a) -> bounds_ok a ->
  start a = Some s -> 1 <= ordinal s <= MAXORDINAL ->
  ordinal s < 7
  \/ MAXORDINAL < ordinal s - (weekday (replace s 12 0 0 0) + 1) mod 7
                  + (7 * grid_width (message_of a) - 1) ->
  run R a g = ([], Raise OverflowError)
  /\ exit_status (snd (run R a g)) = 1
  /\ commit_dates (fst (run R a g)) = [].
Proof.
  intros Hm Hp Hb Hs Hr Hover.
  assert (E : run R a g = ([], Raise OverflowError)).
  { apply (run_window_overflow R a g Hm Hp Hb s Hs).
    destruct (Z_lt_le_dec (ordinal s) 7) as [Hlt|Hge].
    - left. apply window_beginning_early. lia.
    - right. destruct Hover as [Hlt|Hover]; [lia|].
      destruct (window_beginning_spec s) as [b [Eb Hbs]]; [lia|].
      exists b. split; [exact Eb|].
      destruct Hbs as (_ & _ & _ & _ & _ & _ & -> & _). exact Hover. }
  rewrite E. now repeat split.
Qed.

Lemma window_overflow_witness :
  run cycle_source args_late 0%nat = ([], Raise OverflowError)
  /\ exit_status (snd (run cycle_source args_late 0%nat)) = 1
  /\ commit_dates (fst (run cycle_source args_late 0%nat)) = [].
Proof.
  apply (window_overflow cycle_source args_late 0%nat (of_ymd 9999 12 25 0 0 0)).
  - discriminate.
  - repeat constructor; unfold ASCII_PRINTABLE_LAST, ASCII_PRINTABLE_FIRST; lia.
  - unfold bounds_ok; cbn; lia.
  - reflexivity.
  - vm_compute. split; discriminate.
  - right. vm_compute. reflexivity.
Defined.

(** X4: a dry run never creates a commit, whatever the command line; when
    it passes the checks and the window fits the calendar it ends normally
    and leaves the random generator as it found it. *)
Theorem dry_run_no_commit (R : RandomSource) (a : args) (g : rng R) :
  dry_run a = true ->
  commit_dates (fst (run R a g)) = []
  /\ (forall s,
        message_of a <> [] -> Forall printable (message_of a) -> bounds_ok a ->
        start a = Some s -> 7 <= ordinal s ->
        ordinal s + 7 * grid_width (message_of a) - 1 <= MAXORDINAL ->
        snd (run R a g) = Ok (tt, g)).
Proof.
  intros Hdry. split.
  - destruct (message_of a) as [|c rest] eqn:Em.
    { destruct (run_rejected R a g) as [msg ->]; [now left | reflexivity]. }
    assert (Hm : message_of a <> []) by (rewrite Em; discriminate).
    destruct (invalid_chars (message_of a)) as [|i more] eqn:Ei.
    2:{ destruct (run_rejected R a g) as [msg ->]; [|reflexivity].
        right. right. rewrite Ei. discriminate. }
    apply invalid_chars_nil in Ei.
    destruct (Z_lt_le_dec (min_commits a) 0) as [H1|H1].
    { destruct (run_rejected R a g) as [msg ->]; [|reflexivity].
      right. left. unfold bounds_ok. lia. }
    destruct (Z_lt_le_dec (max_commits a) 1) as [H2|H2].
    { destruct (run_rejected R a g) as [msg ->]; [|reflexivity].
      right. left. unfold bounds_ok. lia. }
    destruct (Z_lt_le_dec (max_commits a) (min_commits a)) as [H3|H3].
    { destruct (run_rejected R a g) as [msg ->]; [|reflexivity].
      right. left. unfold bounds_ok. lia. }
    assert (Hb : bounds_ok a) by (unfold bounds_ok; lia).
    destruct (start a) as [s|] eqn:Es.
    + destruct (run_valid R a g s Hm Ei Hb Es) as [Hc _].
      now rewrite Hdry in Hc.
    + now rewrite (run_start_rejected R a g Hm Ei Hb Es).
  - intros s Hm Hp Hb Hs H7 Hfit.
    destruct (run_valid R a g s Hm Hp Hb Hs) as [_ Ho].
    rewrite Hdry in Ho. now apply Ho.
Qed.

Lemma dry_run_no_commit_witness :
  dry_run (args_of 30 35 true [72; 105]) = true
  /\ commit_dates (fst (run cycle_source (args_of 30 35 true [72; 105]) 5%nat)) = []
  /\ snd (run cycle_source (args_of 30 35 true [72; 105]) 5%nat) = Ok (tt, 5%nat).
Proof.
  pose proof (dry_run_no_commit cycle_source (args_of 30 35 true [72; 105]) 5%nat
                eq_refl) as [Hc Ho].
  split; [reflexivity|]. split; [exact Hc|].
  apply (Ho (of_ymd 2023 1 1 0 0 0)).
  - discriminate.
  - repeat constructor; unfold ASCII_PRINTABLE_LAST, ASCII_PRINTABLE_FIRST; lia.
  - unfold bounds_ok; cbn; lia.
  - reflexivity.
  - vm_compute. discriminate.
  - vm_compute. discriminate.
Defined.

(** ** Inversion *)

Lemma index_map {A B : Type} (f : A -> B) (l : list A) (i : Z) :
  Py.index (map f l) i
  = match Py.index l i with
    | Ok a => Ok (f a)
    | Raise e => Raise e
    end.
Proof.
  unfold Py.index. rewrite length_map.
  destruct ((_ <? 0) || _)%bool; [reflexivity|].
  rewrite nth_error_map. now destruct (nth_error l _).
Qed.

Lemma list_ascii_invert_text (s : string) :
  list_ascii_of_string (invert_text s) = map flip_cell (list_ascii_of_string s).
Proof.
  induction s as [|c s IH]; [reflexivity|].
  cbn [invert_text list_ascii_of_string map]. now rewrite IH.
Qed.

Lemma str_index_invert_text (s : string) (i : Z) :
  Py.str_index (invert_text s) i
  = match Py.str_index s i with
    | Ok c => Ok (flip_cell c)
    | Raise e => Raise e
    end.
Proof. unfold Py.str_index. now rewrite list_ascii_invert_text, index_map. Qed.

Lemma rmap_map {A B : Type} (f g : A -> result B) (h : B -> B) (l : list A) :
  (forall a, g a = match f a with Ok b => Ok (h b) | Raise e => Raise e end) ->
  rmap g l = match rmap f l with Ok bs => Ok (map h bs) | Raise e => Raise e end.
Proof.
  intros H. induction l as [|a l IH]; [reflexivity|].
  cbn [rmap]. rewrite H. destruct (f a) as [b|e]; [|reflexivity].
  rewrite IH. now destruct (rmap f l).
Qed.

(** The inverted grid is the plain grid with every row inverted. *)
Lemma build_grid_inverted (font : list (list string)) (message : Py.ustr) :
  build_grid font message true
  = match build_grid font message false with
    | Ok grid => Ok (map invert_text grid)
    | Raise e => Raise e
    end.
Proof.
  unfold build_grid. apply rmap_map. intros row. unfold build_row.
  now destruct (add_glyphs font row message ".").
Qed.

Lemma cell_inverted (grid : list string) (day : Z) :
  cell (map invert_text grid) day
  = match cell grid day with
    | Ok c => Ok (flip_cell c)
    | Raise e => Raise e
    end.
Proof.
  unfold cell, coords. rewrite index_map.
  destruct (Py.index grid (day mod 7)) as [row|e]; [|reflexivity].
  apply str_index_invert_text.
Qed.

Lemma is_on_inverted (grid : list string) (day : Z) (c : ascii) :
  cell grid day = Ok c ->
  is_on (map invert_text grid) day = negb (is_on grid day).
Proof.
  intros Hc. unfold is_on. rewrite cell_inverted, Hc. unfold flip_cell.
  now destruct (Ascii.eqb c ".").
Qed.

Lemma shift_inj (b : datetime) (d d' : Z) : shift b d = shift b d' -> d = d'.
Proof.
  intros E. apply (f_equal ordinal) in E. cbn [shift ordinal] in E. lia.
Qed.

(** A day of the window is in the schedule exactly when its cell is on. *)
Lemma in_schedule (b : datetime) (grid : list string) (n d : Z) :
  0 <= d < n ->
  In (shift b d) (map (shift b) (filter (is_on grid) (Py.range n)))
  <-> is_on grid d = true.
Proof.
  intros Hd. rewrite in_map_iff. split.
  - intros [d' [E Hin]]. apply shift_inj in E. subst d'.
    apply filter_In in Hin. tauto.
  - intros Hon. exists d. split; [reflexivity|].
    apply filter_In. split; [now apply in_range | exact Hon].
Qed.

(** X5: inverting flips every cell of the grid, margins and separators
    included: the inverted grid is the plain grid with each row inverted, a
    day of the window is on in one exactly when it is off in the other, and
    so, from one start date, the inverted run is scheduled on exactly the
    days of the window that the plain run skips. *)
Theorem inversion_complements (message : Py.ustr) :
  Forall printable message ->
  exists grid,
    build_grid get_font message false = Ok grid
    /\ build_grid get_font message true = Ok (map invert_text grid)
    /\ (forall d, 0 <= d < 7 * grid_width message ->
          is_on (map invert_text grid) d = negb (is_on grid d))
    /\ (forall s b d,
          window_beginning s = Ok b ->
          ordinal b + (7 * grid_width message - 1) <= MAXORDINAL ->
          0 <= d < 7 * grid_width message ->
          In (shift b d) (on_days message true s)
          <-> ~ In (shift b d) (on_days message false s)).
Proof.
  intros Hp.
  destruct (build_grid_ok get_font font_length font_glyphs_ok message false Hp)
    as [grid [Hg [H7 Hall]]].
  rewrite Forall_forall in Hall. fold (grid_width message) in Hall.
  pose proof (grid_width_pos message) as HW.
  assert (Hgi : build_grid get_font message true = Ok (map invert_text grid))
    by (rewrite build_grid_inverted, Hg; reflexivity).
  assert (Hflip : forall d, 0 <= d < 7 * grid_width message ->
                    is_on (map invert_text grid) d = negb (is_on grid d)).
  { intros d Hd.
    destruct (cell_in_grid grid _ d H7 Hall Hd) as [row [c [_ [_ Hc]]]].
    eapply is_on_inverted; eauto. }
  exists grid. split; [exact Hg|]. split; [exact Hgi|]. split; [exact Hflip|].
  intros s b d Hb Hfit Hd.
  assert (H7i : List.length (map invert_text grid) = 7%nat)
    by now rewrite length_map.
  assert (Halli : forall row, In row (map invert_text grid) ->
                    Py.len row = grid_width message).
  { intros row Hin. apply in_map_iff in Hin. destruct Hin as [r [<- Hr]].
    rewrite len_invert_text. now apply Hall. }
  apply add_days_inv in Hb as Hb'. destruct Hb' as [_ Hbr].
  assert (He : add_days b (7 * grid_width message - 1)
               = Ok (shift b (7 * grid_width message - 1))).
  { apply add_days_in_range.
    unfold window_beginning, sub_days in Hb. apply add_days_inv in Hb.
    destruct Hb as [-> Hr]. cbn [shift ordinal replace] in *. lia. }
  unfold on_days.
  rewrite Hgi, Hg, (num_days_of_grid _ _ H7 Hall), (num_days_of_grid _ _ H7i Halli),
    Hb, He.
  rewrite !in_schedule by exact Hd. rewrite (Hflip d Hd).
  destruct (is_on grid d); cbn [negb]; split; congruence.
Qed.

Lemma inversion_complements_witness :
  Forall printable [72; 105]
  /\ exists grid,
       build_grid get_font [72; 105] false = Ok grid
       /\ build_grid get_font [72; 105] true = Ok (map invert_text grid)
       /\ (forall d, 0 <= d < 7 * grid_width [72; 105] ->
             is_on (map invert_text grid) d = negb (is_on grid d)).
Proof.
  assert (H : Forall printable [72; 105]).
  { repeat constructor; unfold ASCII_PRINTABLE_LAST, ASCII_PRINTABLE_FIRST; lia. }
  split; [exact H|].
  destruct (inversion_complements [72; 105] H) as [grid [H1 [H2 [H3 _]]]].
  exists grid. exact (conj H1 (conj H2 H3)).
Defined.

(** ** The cells of the grid *)

Lemma font_cells : forallb (forallb cells_only) get_font = true.
Proof. vm_compute. reflexivity. Qed.

Lemma list_ascii_append (s t : string) :
  list_ascii_of_string (s ++ t)
  = (list_ascii_of_string s ++ list_ascii_of_string t)%list.
Proof. induction s as [|c s IH]; [reflexivity|]. cbn. now rewrite IH. Qed.

Lemma cells_only_append (s t : string) :
  cells_only (s ++ t) = (cells_only s && cells_only t)%bool.
Proof. unfold cells_only. now rewrite list_ascii_append, forallb_app. Qed.

Lemma cells_only_invert_text (s : string) : cells_only (invert_text s) = true.
Proof.
  unfold cells_only. rewrite list_ascii_invert_text, forallb_forall.
  intros c Hin. apply in_map_iff in Hin. destruct Hin as [c0 [<- _]].
  unfold flip_cell. now destruct (Ascii.eqb c0 ".").
Qed.

Lemma invert_text_involutive (s : string) :
  cells_only s = true -> invert_text (invert_text s) = s.
Proof.
  unfold cells_only. induction s as [|c s IH]; [reflexivity|].
  cbn [list_ascii_of_string forallb invert_text]. intros H.
  apply andb_true_iff in H. destruct H as [Hc Hs]. rewrite (IH Hs). f_equal.
  unfold is_cell in Hc. apply orb_true_iff in Hc.
  destruct Hc as [Hc|Hc]; apply Ascii.eqb_eq in Hc; subst c; reflexivity.
Qed.

Lemma rmap_inv {A B : Type} (f : A -> result B) (l : list A) (bs : list B) :
  rmap f l = Ok bs -> Forall (fun b => exists a, In a l /\ f a = Ok b) bs.
Proof.
  revert bs. induction l as [|a l IH]; intros bs; cbn [rmap].
  - intros [= <-]. constructor.
  - destruct (f a) as [b|e] eqn:Ea; [|discriminate].
    destruct (rmap f l) as [bs'|e]; [|discriminate].
    intros [= <-]. constructor.
    + exists a. split; [now left | exact Ea].
    + eapply Forall_impl; [|apply IH; reflexivity].
      cbv beta. intros b' [a' [Hin Ha']]. exists a'. split; [now right | exact Ha'].
Qed.

Section Cells.

Variable font : list (list string).
Hypothesis font_cells_ok : forallb (forallb cells_only) font = true.

Lemma add_glyphs_cells (row : Z) (message : Py.ustr) :
  forall row_text s,
    cells_only row_text = true ->
    add_glyphs font row message row_text = Ok s ->
    cells_only s = true.
Proof.
  induction message as [|c rest IH]; intros row_text s Hacc; cbn [add_glyphs].
  - now intros [= <-].
  - destruct (Py.index font _) as [glyph|e] eqn:Eg; [|discriminate].
    destruct (Py.index glyph row) as [piece|e] eqn:Ep; [|discriminate].
    apply IH. rewrite !cells_only_append, Hacc.
    rewrite forallb_forall in font_cells_ok.
    pose proof (font_cells_ok glyph (index_In _ _ _ Eg)) as Hglyph.
    rewrite forallb_forall in Hglyph.
    now rewrite (Hglyph piece (index_In _ _ _ Ep)).
Qed.

Lemma build_grid_cells (message : Py.ustr) (inv : bool) (grid : list string) :
  build_grid font message inv = Ok grid ->
  Forall (fun row => cells_only row = true) grid.
Proof.
  intros Hg. apply rmap_inv in Hg.
  eapply Forall_impl; [|exact Hg]. cbv beta.
  intros s [row [_ Hs]]. unfold build_row in Hs.
  destruct (add_glyphs font row message ".") as [t|e] eqn:Et; [|discriminate].
  injection Hs as <-. destruct inv.
  - apply cells_only_invert_text.
  - eapply add_glyphs_cells; [|exact Et]. reflexivity.
Qed.

End Cells.

(** X6: every cell of a grid that the builder returns is [#] or [.],
    whatever the message and the flag; on such a grid inverting twice gives
    the grid back. *)
Theorem grid_cells_and_double_inversion (message : Py.ustr) (inv : bool)
    (grid : list string) :
  build_grid get_font message inv = Ok grid ->
  (forall row c, In row grid -> In c (list_ascii_of_string row) ->
                 c = "."%char \/ c = "#"%char)
  /\ map invert_text (map invert_text grid) = grid.
Proof.
  intros Hg.
  pose proof (build_grid_cells get_font font_cells message inv grid Hg) as Hc.
  rewrite Forall_forall in Hc. split.
  - intros row c Hrow Hin. specialize (Hc row Hrow).
    unfold cells_only in Hc. rewrite forallb_forall in Hc.
    specialize (Hc c Hin). unfold is_cell in Hc. apply orb_true_iff in Hc.
    destruct Hc as [H|H]; apply Ascii.eqb_eq in H; auto.
  - rewrite map_map. rewrite <- (map_id grid) at 2.
    apply map_ext_in. intros row Hrow. now apply invert_text_involutive, Hc.
Qed.

Lemma grid_cells_and_double_inversion_witness :
  build_grid get_font [126] true
  = Ok ["########"; "########"; "##..##.#"; "#.##..##"; "########"; "########";
        "########"]
  /\ map invert_text
       (map invert_text
          ["########"; "########"; "##..##.#"; "#.##..##"; "########"; "########";
           "########"])
     = ["########"; "########"; "##..##.#"; "#.##..##"; "########"; "########";
        "########"].
Proof.
  assert (H : build_grid get_font [126] true
              = Ok ["########"; "########"; "##..##.#"; "#.##..##"; "########";
                    "########"; "########"])
    by (vm_compute; reflexivity).
  split; [exact H|].
  exact (proj2 (grid_cells_and_double_inversion [126] true _ H)).
Defined.

(** ** The margins of the grid *)

Lemma string_append_assoc (s t u : string) : (s ++ t) ++ u = s ++ (t ++ u).
Proof. induction s as [|c s IH]; [reflexivity|]. cbn. now rewrite IH. Qed.

Lemma add_glyphs_prefix (font : list (list string)) (row : Z) (message : Py.ustr) :
  forall row_text s,
    add_glyphs font row message row_text = Ok s -> exists t, s = row_text ++ t.
Proof.
  induction message as [|c rest IH]; intros row_text s; cbn [add_glyphs].
  - intros [= <-]. exists "". induction row_text as [|a r IHr]; [reflexivity|].
    cbn. now rewrite <- IHr.
  - destruct (Py.index font _) as [glyph|e]; [|discriminate].
    destruct (Py.index glyph row) as [piece|e]; [|discriminate].
    intros H. destruct (IH _ _ H) as [t ->].
    eexists. apply string_append_assoc.
Qed.

Lemma add_glyphs_suffix (font : list (list string)) (row : Z) (message : Py.ustr) :
  forall row_text s,
    (exists u, row_text = u ++ ".") ->
    add_glyphs font row message row_text = Ok s -> exists u, s = u ++ ".".
Proof.
  induction message as [|c rest IH]; intros row_text s Hacc; cbn [add_glyphs].
  - now intros [= <-].
  - destruct (Py.index font _) as [glyph|e]; [|discriminate].
    destruct (Py.index glyph row) as [piece|e]; [|discriminate].
    apply IH. exists (row_text ++ piece). now rewrite string_append_assoc.
Qed.

Lemma str_index_first (c : ascii) (t : string) :
  Py.str_index (String c t) 0 = Ok c.
Proof.
  unfold Py.str_index. cbn [list_ascii_of_string].
  destruct (index_in_bounds (c :: list_ascii_of_string t) 0) as [a [Hi Hn]].
  - cbn [List.length]. lia.
  - cbn in Hn. injection Hn as <-. exact Hi.
Qed.

Lemma str_index_last (u : string) (c : ascii) :
  Py.str_index (u ++ String c "") (Py.len (u ++ String c "") - 1) = Ok c.
Proof.
  unfold Py.str_index. rewrite len_append, list_ascii_append.
  change (Py.len (String c "")) with 1. cbn [list_ascii_of_string].
  unfold Py.len. rewrite <- length_list_ascii.
  set (l := list_ascii_of_string u).
  destruct (index_in_bounds (l ++ [c]) (Z.of_nat (List.length l) + 1 - 1))
    as [a [Hi Hn]].
  - rewrite length_app. cbn [List.length]. lia.
  - replace (Z.to_nat (Z.of_nat (List.length l) + 1 - 1)) with (List.length l) in Hn
      by lia.
    rewrite nth_error_app2, Nat.sub_diag in Hn by lia.
    cbn in Hn. injection Hn as <-. exact Hi.
Qed.

(** In a plain grid every row starts and ends with an off cell. *)
Lemma plain_rows_margins (message : Py.ustr) (grid : list string) :
  build_grid get_font message false = Ok grid ->
  forall row, In row grid ->
    Py.str_index row 0 = Ok "."%char
    /\ Py.str_index row (Py.len row - 1) = Ok "."%char.
Proof.
  intros Hg row Hin. apply rmap_inv in Hg. rewrite Forall_forall in Hg.
  destruct (Hg row Hin) as [r [_ Hr]]. unfold build_row in Hr.
  destruct (add_glyphs get_font r message ".") as [s|e] eqn:Es; [|discriminate].
  injection Hr as <-. split.
  - destruct (add_glyphs_prefix _ _ _ _ _ Es) as [t ->]. apply str_index_first.
  - destruct (add_glyphs_suffix _ _ _ "." s (ex_intro _ "" eq_refl) Es) as [u ->].
    apply str_index_last.
Qed.

(** X7: in the grid of a printable message the first and the last column
    are margin and separator: without inversion the first seven and the last
    seven days of the window are off, with inversion they are on; so a plain
    run is never scheduled in the first or the last week of its window. *)
Theorem margin_weeks (message : Py.ustr) :
  Forall printable message ->
  exists grid,
    build_grid get_font message false = Ok grid
    /\ (forall d,
          0 <= d < 7 \/ 7 * (grid_width message - 1) <= d < 7 * grid_width message ->
          is_on grid d = false /\ is_on (map invert_text grid) d = true)
    /\ (forall s d,
          In d (on_days message false s) ->
          exists b,
            window_beginning s = Ok b
            /\ ordinal b + 7 <= ordinal d < ordinal b + 7 * (grid_width message - 1)).
Proof.
  intros Hp.
  destruct (build_grid_ok get_font font_length font_glyphs_ok message false Hp)
    as [grid [Hg [H7 Hall]]].
  rewrite Forall_forall in Hall. fold (grid_width message) in Hall.
  pose proof (grid_width_pos message) as HW.
  assert (Hoff : forall d,
             0 <= d < 7 \/ 7 * (grid_width message - 1) <= d < 7 * grid_width message ->
             is_on grid d = false).
  { intros d Hd.
    assert (Hin : 0 <= d < 7 * grid_width message) by lia.
    destruct (cell_in_grid grid _ d H7 Hall Hin) as [row [c [Hrow [Hc Hcell]]]].
    pose proof (index_In _ _ _ Hrow) as Hr.
    destruct (plain_rows_margins message grid Hg row Hr) as [Hfirst Hlast].
    unfold is_on. rewrite Hcell.
    destruct Hd as [Hd|Hd].
    - rewrite Z.div_small in Hc by lia. rewrite Hfirst in Hc. now injection Hc as <-.
    - assert (Ex : d / 7 = Py.len row - 1).
      { rewrite (Hall row Hr).
        pose proof (Z.div_mod d 7). pose proof (Z.mod_pos_bound d 7). lia. }
      rewrite Ex, Hlast in Hc. now injection Hc as <-. }
  exists grid. split; [exact Hg|]. split.
  - intros d Hd. split; [now apply Hoff|].
    assert (Hin : 0 <= d < 7 * grid_width message) by lia.
    destruct (cell_in_grid grid _ d H7 Hall Hin) as [row [c [_ [_ Hcell]]]].
    rewrite (is_on_inverted grid d c Hcell), (Hoff d Hd). reflexivity.
  - intros s d. unfold on_days.
    rewrite Hg, (num_days_of_grid _ _ H7 Hall).
    destruct (window_beginning s) as [b|e]; [|contradiction].
    destruct (add_days b _) as [e|e]; [|contradiction].
    intros Hin. apply in_map_iff in Hin. destruct Hin as [day [<- Hday]].
    apply filter_In in Hday. destruct Hday as [Hr Hon].
    apply in_range in Hr. exists b. split; [reflexivity|].
    cbn [shift ordinal].
    destruct (Z_lt_le_dec day 7) as [H1|H1].
    { rewrite Hoff in Hon by lia. discriminate. }
    destruct (Z_lt_le_dec day (7 * (grid_width message - 1))) as [H2|H2]; [lia|].
    rewrite Hoff in Hon by lia. discriminate.
Qed.

Lemma margin_weeks_witness :
  Forall printable [65]
  /\ exists grid,
       build_grid get_font [65] false = Ok grid
       /\ (forall d,
             0 <= d < 7 \/ 7 * (grid_width [65] - 1) <= d < 7 * grid_width [65] ->
             is_on grid d = false /\ is_on (map invert_text grid) d = true).
Proof.
  assert (H : Forall printable [65]).
  { repeat constructor; unfold ASCII_PRINTABLE_LAST, ASCII_PRINTABLE_FIRST; lia. }
  split; [exact H|].
  destruct (margin_weeks [65] H) as [grid [H1 [H2 _]]].
  exists grid. exact (conj H1 H2).
Defined.

(** ** The dates of the commits *)

Lemma window_beginning_inv (s b : datetime) :
  window_beginning s = Ok b ->
  weekday b = SUNDAY
  /\ hour b = 12 /\ minute b = 0 /\ second b = 0 /\ microsecond b = 0
  /\ tzinfo b = tzinfo s
  /\ ordinal b <= ordinal s < ordinal b + 7
  /\ 1 <= ordinal b <= MAXORDINAL.
Proof.
  unfold window_beginning, sub_days. intros H. apply add_days_inv in H.
  destruct H as [-> Hr]. unfold weekday, SUNDAY in *.
  cbn [shift ordinal hour minute second microsecond tzinfo replace] in *.
  pose proof (Z.div_mod (ordinal s + 6) 7).
  pose proof (Z.mod_pos_bound (ordinal s + 6) 7).
  pose proof (Z.div_mod ((ordinal s + 6) mod 7 + 1) 7).
  pose proof (Z.mod_pos_bound ((ordinal s + 6) mod 7 + 1) 7).
  pose proof (Z.div_mod (ordinal s + - (((ordinal s + 6) mod 7 + 1) mod 7) + 6) 7).
  pose proof (Z.mod_pos_bound
                (ordinal s + - (((ordinal s + 6) mod 7 + 1) mod 7) + 6) 7).
  repeat split; try lia.
Qed.

(** What being in the schedule of a printable message means. *)
Lemma on_days_inv (message : Py.ustr) (inv : bool) (s d : datetime) :
  Forall printable message ->
  In d (on_days message inv s) ->
  exists grid b day,
    build_grid get_font message inv = Ok grid
    /\ window_beginning s = Ok b
    /\ 0 <= day < 7 * grid_width message
    /\ ordinal b + (7 * grid_width message - 1) <= MAXORDINAL
    /\ is_on grid day = true
    /\ d = shift b day.
Proof.
  intros Hp.
  destruct (build_grid_ok get_font font_length font_glyphs_ok message inv Hp)
    as [grid [Hg [H7 Hall]]].
  rewrite Forall_forall in Hall. fold (grid_width message) in Hall.
  unfold on_days. rewrite Hg, (num_days_of_grid _ _ H7 Hall).
  destruct (window_beginning s) as [b|e]; [|contradiction].
  destruct (add_days b _) as [e|e] eqn:Ee; [|contradiction].
  apply add_days_inv in Ee. destruct Ee as [_ Hr].
  intros Hin. apply in_map_iff in Hin. destruct Hin as [day [<- Hday]].
  apply filter_In in Hday. destruct Hday as [Hrange Hon].
  apply in_range in Hrange.
  exists grid, b, day. repeat split; auto; lia.
Qed.

(** X8: every commit of a run that passes the checks is dated at noon
    sharp, on a day of the window whose cell is on; the row of that cell is
    the weekday of the date counted from Sunday, and the column is the
    number of whole weeks since the beginning.  (The text given to git is
    the date and the time of day only: it names no time zone.) *)
Theorem commit_timestamps (R : RandomSource) (a : args) (g : rng R) (s : datetime) :
  message_of a <> [] -> Forall printable (message_of a) -> bounds_ok a ->
  start a = Some s ->
  forall d, In d (commit_dates (fst (run R a g))) ->
    hour d = 12 /\ minute d = 0 /\ second d = 0 /\ microsecond d = 0
    /\ 1 <= ordinal d <= MAXORDINAL
    /\ exists grid b day c,
         build_grid get_font (message_of a) (invert a) = Ok grid
         /\ window_beginning s = Ok b
         /\ 0 <= day < 7 * grid_width (message_of a)
         /\ ordinal d = ordinal b + day
         /\ cell grid day = Ok c /\ c <> "."%char
         /\ fst (coords day) = (weekday d + 1) mod 7
         /\ snd (coords day) = (ordinal d - ordinal b) / 7.
Proof.
  intros Hm Hp Hb Hs d Hin.
  destruct (run_valid R a g s Hm Hp Hb Hs) as [Hc _]. rewrite Hc in Hin.
  destruct (dry_run a); [contradiction|].
  apply in_expand in Hin.
  destruct (on_days_inv _ _ _ _ Hp Hin)
    as [grid [b [day [Hg [Hbeg [Hday [Hfit [Hon ->]]]]]]]].
  destruct (window_beginning_inv s b Hbeg)
    as (Hw & Hh & Hmi & Hse & Hus & Htz & Hord & Hbr).
  cbn [shift hour minute second microsecond tzinfo ordinal].
  repeat (split; [assumption || lia|]).
  unfold is_on in Hon. destruct (cell grid day) as [c|e] eqn:Ec; [|discriminate].
  exists grid, b, day, c.
  repeat (split; [assumption || reflexivity|]).
  split.
  { intros ->. discriminate. }
  unfold coords, weekday, SUNDAY in *. cbn [fst snd shift ordinal].
  split.
  - pose proof (Z.div_mod (ordinal b + 6) 7).
    pose proof (Z.div_mod (ordinal b + day + 6) 7).
    pose proof (Z.mod_pos_bound (ordinal b + day + 6) 7).
    pose proof (Z.div_mod ((ordinal b + day + 6) mod 7 + 1) 7).
    pose proof (Z.mod_pos_bound ((ordinal b + day + 6) mod 7 + 1) 7).
    pose proof (Z.div_mod day 7).
    pose proof (Z.mod_pos_bound day 7).
    lia.
  - f_equal. lia.
Qed.

Lemma commit_timestamps_witness :
  let a := args_of 1 1 false [33] in
  let d := shift (of_ymd 2023 1 1 12 0 0) 9 in
  In d (commit_dates (fst (run low_source a tt)))
  /\ hour d = 12 /\ minute d = 0 /\ second d = 0 /\ microsecond d = 0
  /\ 1 <= ordinal d <= MAXORDINAL.
Proof.
  cbv zeta.
  assert (Hin : In (shift (of_ymd 2023 1 1 12 0 0) 9)
                  (commit_dates (fst (run low_source (args_of 1 1 false [33]) tt)))).
  { vm_compute. right. left. reflexivity. }
  split; [exact Hin|].
  assert (Hp : Forall printable (message_of (args_of 1 1 false [33]))).
  { repeat constructor; unfold ASCII_PRINTABLE_LAST, ASCII_PRINTABLE_FIRST; lia. }
  assert (Hb : bounds_ok (args_of 1 1 false [33])) by (unfold bounds_ok; cbn; lia).
  assert (Hm : message_of (args_of 1 1 false [33]) <> []) by discriminate.
  destruct (commit_timestamps low_source (args_of 1 1 false [33]) tt
              (of_ymd 2023 1 1 0 0 0) Hm Hp Hb eq_refl _ Hin)
    as (H1 & H2 & H3 & H4 & H5 & _).
  exact (conj H1 (conj H2 (conj H3 (conj H4 H5)))).
Defined.

(** ** Order and number of the commits *)

Lemma range_from_sorted (k a : nat) :
  StronglySorted Z.lt (map Z.of_nat (seq a k)).
Proof.
  revert a. induction k as [|k IH]; intros a; cbn [seq map]; constructor.
  - apply IH.
  - apply Forall_forall. intros x Hx. apply in_map_iff in Hx.
    destruct Hx as [n [<- Hn]]. apply in_seq in Hn. lia.
Qed.

Lemma StronglySorted_filter {A : Type} (R : A -> A -> Prop) (p : A -> bool)
    (l : list A) :
  StronglySorted R l -> StronglySorted R (filter p l).
Proof.
  induction 1 as [|x l Hl IH Hx]; cbn [filter]; [constructor|].
  destruct (p x); [|exact IH]. constructor; [exact IH|].
  apply Forall_forall. intros y Hy. apply filter_In in Hy.
  rewrite Forall_forall in Hx. now apply Hx.
Qed.

Lemma StronglySorted_map {A B : Type} (R : A -> A -> Prop) (S : B -> B -> Prop)
    (f : A -> B) (l : list A) :
  (forall x y, R x y -> S (f x) (f y)) ->
  StronglySorted R l -> StronglySorted S (map f l).
Proof.
  intros Hf. induction 1 as [|x l Hl IH Hx]; cbn [map]; constructor; [exact IH|].
  apply Forall_forall. intros y Hy. apply in_map_iff in Hy.
  destruct Hy as [z [<- Hz]]. rewrite Forall_forall in Hx. auto.
Qed.

(** The schedule is in strictly increasing order of date. *)
Lemma on_days_sorted (message : Py.ustr) (inv : bool) (s : datetime) :
  StronglySorted (fun d1 d2 => ordinal d1 < ordinal d2) (on_days message inv s).
Proof.
  unfold on_days.
  destruct (build_grid get_font message inv) as [grid|e]; [|constructor].
  destruct (num_days_of grid) as [n|e]; [|constructor].
  destruct (window_beginning s) as [b|e]; [|constructor].
  destruct (add_days b (n - 1)) as [e|e]; [|constructor].
  apply StronglySorted_map with (R := Z.lt).
  - intros x y Hxy. cbn [shift ordinal]. lia.
  - apply StronglySorted_filter. apply range_from_sorted.
Qed.

Lemma expand_sorted (days : list datetime) :
  StronglySorted (fun d1 d2 => ordinal d1 < ordinal d2) days ->
  forall counts,
    StronglySorted (fun d1 d2 => ordinal d1 <= ordinal d2) (expand days counts).
Proof.
  induction 1 as [|d days Hdays IH Hd]; intros counts; cbn [expand];
    [constructor|].
  destruct counts as [|n counts]; [constructor|].
  assert (Hrest : Forall (fun d2 => ordinal d <= ordinal d2) (expand days counts)).
  { apply Forall_forall. intros x Hx. apply in_expand in Hx.
    rewrite Forall_forall in Hd. specialize (Hd x Hx). cbv beta in Hd. lia. }
  induction (Z.to_nat n) as [|k IHk]; cbn [repeat app]; [apply IH|].
  constructor; [exact IHk|].
  apply Forall_app. split; [|exact Hrest].
  apply Forall_forall. intros x Hx. apply repeat_spec in Hx. subst x. lia.
Qed.

Lemma length_expand (lo hi : Z) (days : list datetime) :
  0 <= lo ->
  forall counts,
    List.length counts = List.length days ->
    Forall (fun n => lo <= n <= hi) counts ->
    lo * Z.of_nat (List.length days)
    <= Z.of_nat (List.length (expand days counts))
    <= hi * Z.of_nat (List.length days).
Proof.
  intros Hlo. induction days as [|d days IH]; intros [|n counts] Hlen Hr;
    cbn [List.length] in Hlen; try discriminate; cbn [expand List.length].
  - lia.
  - inversion Hr as [|? ? Hn Hrest]; subst.
    specialize (IH counts ltac:(lia) Hrest).
    rewrite length_app, repeat_length, Nat2Z.inj_add, Nat2Z.inj_succ, Z2Nat.id by lia.
    rewrite <- !Z.add_1_r, !Z.mul_add_distr_l. lia.
Qed.

(** X9: the commits of a run are created in the order of their dates: no
    commit is dated before an earlier one of the same run. *)
Theorem commits_chronological (R : RandomSource) (a : args) (g : rng R)
    (s : datetime) :
  message_of a <> [] -> Forall printable (message_of a) -> bounds_ok a ->
  start a = Some s ->
  StronglySorted (fun d1 d2 => ordinal d1 <= ordinal d2)
    (commit_dates (fst (run R a g))).
Proof.
  intros Hm Hp Hb Hs.
  destruct (run_valid R a g s Hm Hp Hb Hs) as [-> _].
  destruct (dry_run a); [constructor|].
  apply expand_sorted, on_days_sorted.
Qed.

Lemma commits_chronological_witness :
  StronglySorted (fun d1 d2 => ordinal d1 <= ordinal d2)
    (commit_dates (fst (run cycle_source (args_of 30 35 false [72; 105]) 0%nat))).
Proof.
  apply (commits_chronological cycle_source (args_of 30 35 false [72; 105]) 0%nat
           (of_ymd 2023 1 1 0 0 0)).
  - discriminate.
  - repeat constructor; unfold ASCII_PRINTABLE_LAST, ASCII_PRINTABLE_FIRST; lia.
  - unfold bounds_ok; cbn; lia.
  - reflexivity.
Defined.

(** X10: a run that passes the checks and is not a dry run creates, over
    its [k] days that are on, at least [k * min_commits] and at most
    [k * max_commits] commits. *)
Theorem total_commits (R : RandomSource) (a : args) (g : rng R) (s : datetime) :
  message_of a <> [] -> Forall printable (message_of a) -> bounds_ok a ->
  start a = Some s -> dry_run a = false ->
  let k := Z.of_nat (List.length (on_days (message_of a) (invert a) s)) in
  min_commits a * k
  <= Z.of_nat (List.length (commit_dates (fst (run R a g))))
  <= max_commits a * k.
Proof.
  intros Hm Hp Hb Hs Hdry k.
  destruct (run_valid R a g s Hm Hp Hb Hs) as [-> _]. rewrite Hdry.
  apply length_expand.
  - destruct Hb as [H _]. exact H.
  - apply draw_counts_length.
  - now apply draw_counts_range.
Qed.

Lemma total_commits_witness :
  let a := args_of 30 35 false [33] in
  Z.of_nat (List.length (on_days (message_of a) (invert a) (of_ymd 2023 1 1 0 0 0))) = 4
  /\ 30 * 4
     <= Z.of_nat (List.length (commit_dates (fst (run cycle_source a 0%nat))))
     <= 35 * 4.
Proof.
  cbv zeta.
  assert (Hk : Z.of_nat (List.length (on_days (message_of (args_of 30 35 false [33]))
                                        (invert (args_of 30 35 false [33]))
                                        (of_ymd 2023 1 1 0 0 0))) = 4)
    by (vm_compute; reflexivity).
  split; [exact Hk|].
  assert (Hp : Forall printable (message_of (args_of 30 35 false [33]))).
  { repeat constructor; unfold ASCII_PRINTABLE_LAST, ASCII_PRINTABLE_FIRST; lia. }
  assert (Hb : bounds_ok (args_of 30 35 false [33])) by (unfold bounds_ok; cbn; lia).
  assert (Hm : message_of (args_of 30 35 false [33]) <> []) by discriminate.
  pose proof (total_commits cycle_source (args_of 30 35 false [33]) 0%nat
                (of_ymd 2023 1 1 0 0 0) Hm Hp Hb eq_refl eq_refl) as H.
  cbv zeta in H. rewrite Hk in H. exact H.
Defined.

(** ** The progress bar *)

Lemma fold_left_ext_in {A B : Type} (f g : A -> B -> A) (l : list B) :
  (forall a b, In b l -> f a b = g a b) ->
  forall a, fold_left f l a = fold_left g l a.
Proof.
  induction l as [|b l IH]; intros H a; [reflexivity|].
  cbn [fold_left]. rewrite (H a b (or_introl eq_refl)).
  apply IH. intros a' b' Hb'. apply H. now right.
Qed.

Lemma inject_Z_le_floor (z : Z) (q : Q) :
  Qle_bool (inject_Z z) q = (z <=? Qfloor q).
Proof.
  destruct (z <=? Qfloor q) eqn:E.
  - apply Qle_bool_iff. apply Z.leb_le in E.
    apply Qle_trans with (inject_Z (Qfloor q)).
    + now rewrite <- Zle_Qle.
    + apply Qfloor_le.
  - destruct (Qle_bool (inject_Z z) q) eqn:E'; [|reflexivity].
    apply Qle_bool_iff, Qfloor_resp_le in E'. rewrite Qfloor_Z in E'. lia.
Qed.

Lemma bar_by_cases (k : nat) :
  (k <= 25)%nat ->
  fold_left
    (fun bar i => if i <? Z.of_nat k then bar ++ "=" else bar ++ " ")
    (Py.range 25) ""
  = bar_of k.
Proof.
  intros Hk.
  do 26 (destruct k as [|k]; [vm_compute; reflexivity|]).
  lia.
Qed.

(** The text of [progress] at any percentage. *)
Lemma progress_shape (percent : Q) :
  progress percent
  = "[" ++ bar_of (filled percent) ++ "] "
    ++ Py.str_of_int (int_of_Q percent) ++ "%".
Proof.
  unfold progress. cbv zeta. do 2 f_equal.
  rewrite <- (bar_by_cases (filled percent)) by (unfold filled; lia).
  apply fold_left_ext_in. intros bar i Hi. apply in_range in Hi.
  rewrite inject_Z_le_floor.
  replace (i * 4 <=? Qfloor percent) with (i <? Z.of_nat (filled percent));
    [reflexivity|].
  unfold filled.
  pose proof (Z.div_mod (Qfloor percent) 4).
  pose proof (Z.mod_pos_bound (Qfloor percent) 4).
  destruct (i * 4 <=? Qfloor percent) eqn:E.
  - apply Z.leb_le in E. apply Z.ltb_lt. lia.
  - apply Z.leb_gt in E. apply Z.ltb_ge. lia.
Qed.

Lemma percent_of_floor (day n : Z) :
  0 <= day -> 0 < n ->
  Qfloor (percent_of day n) = day * 100 / n
  /\ int_of_Q (percent_of day n) = day * 100 / n.
Proof.
  intros Hday Hn. unfold percent_of. split.
  - symmetry. apply Zdiv_Qdiv.
  - destruct n as [|p|p]; try lia.
    unfold int_of_Q, Qdiv, Qmult, Qinv, inject_Z. cbn [Qnum Qden].
    rewrite Z.mul_1_r. cbn [Pos.mul].
    apply Z.quot_div_nonneg; lia.
Qed.

(** X11: the text of [progress] is a bar of exactly 25 slots between
    brackets, then the percentage cut to an integer; the filled slots come
    first, and their number is the integer part of [percent / 4] plus one,
    kept between 0 and 25: none below zero, all from 96 on. *)
Theorem progress_text (percent : Q) :
  progress percent
  = "[" ++ bar_of (filled percent) ++ "] "
    ++ Py.str_of_int (int_of_Q percent) ++ "%"
  /\ String.length (bar_of (filled percent)) = 25%nat
  /\ (filled percent <= 25)%nat
  /\ (Qlt percent (inject_Z 0) -> filled percent = 0%nat)
  /\ (Qle (inject_Z 96) percent -> filled percent = 25%nat).
Proof.
  split; [apply progress_shape|].
  assert (Hk : (filled percent <= 25)%nat) by (unfold filled; lia).
  split.
  { revert Hk. generalize (filled percent). intros k Hk.
    do 26 (destruct k as [|k]; [reflexivity|]). lia. }
  split; [exact Hk|]. unfold filled. split.
  - intros Hneg.
    assert (Qfloor percent < 0).
    { destruct (Z_lt_le_dec (Qfloor percent) 0) as [H|H]; [exact H|].
      exfalso. apply (Qlt_irrefl percent).
      apply Qlt_le_trans with (inject_Z 0); [exact Hneg|].
      apply Qle_trans with (inject_Z (Qfloor percent)).
      - now rewrite <- Zle_Qle.
      - apply Qfloor_le. }
    pose proof (Z.div_mod (Qfloor percent) 4).
    pose proof (Z.mod_pos_bound (Qfloor percent) 4). lia.
  - intros Hfull. apply Qfloor_resp_le in Hfull. rewrite Qfloor_Z in Hfull.
    pose proof (Z.div_mod (Qfloor percent) 4).
    pose proof (Z.mod_pos_bound (Qfloor percent) 4). lia.
Qed.

Lemma progress_text_witness :
  Qle (inject_Z 96) (97 # 1)
  /\ filled (97 # 1) = 25%nat
  /\ progress (97 # 1) = "[=========================] 97%".
Proof.
  assert (H : Qle (inject_Z 96) (97 # 1)) by (vm_compute; discriminate).
  split; [exact H|].
  split; [exact (proj2 (proj2 (proj2 (proj2 (progress_text (97 # 1))))) H)|].
  exact (proj1 (progress_text (97 # 1))).
Defined.

(** X12: on day [day] of a window of [num_days] days, for every window
    that fits the calendar (at most [MAXORDINAL] days, where the float
    quotient of the program and the exact one give the same text), the loop
    shows the integer part of [100 * day / num_days], which stays below 100,
    and a bar with a quarter of that number, plus one, of its slots filled;
    the bar is full from 96 percent on, before the last day is done. *)
Theorem progress_of_day (day num_days : Z) :
  0 <= day < num_days -> num_days <= MAXORDINAL ->
  let shown := day * 100 / num_days in
  progress (percent_of day num_days)
  = "[" ++ bar_of (Z.to_nat (shown / 4 + 1)) ++ "] " ++ Py.str_of_int shown ++ "%"
  /\ 0 <= shown < 100
  /\ (1 <= Z.to_nat (shown / 4 + 1) <= 25)%nat.
Proof.
  intros Hday _ shown.
  destruct (percent_of_floor day num_days) as [Hf Hi]; [lia | lia |].
  assert (Hs : 0 <= shown < 100).
  { subst shown. split.
    - apply Z.div_pos; lia.
    - apply Z.div_lt_upper_bound; lia. }
  pose proof (Z.div_mod shown 4). pose proof (Z.mod_pos_bound shown 4).
  split; [|split; [exact Hs | lia]].
  rewrite progress_shape, Hi. unfold filled. rewrite Hf. fold shown.
  do 3 f_equal. lia.
Qed.

Lemma progress_of_day_witness :
  0 <= 13 < 14 /\ 14 <= MAXORDINAL
  /\ progress (percent_of 13 14) = "[======================== ] 92%".
Proof.
  assert (H : 0 <= 13 < 14) by lia.
  assert (Hn : 14 <= MAXORDINAL) by (unfold MAXORDINAL; lia).
  split; [exact H|]. split; [exact Hn|].
  exact (proj1 (progress_of_day 13 14 H Hn)).
Defined.

(** ** What one day prints and runs *)

Lemma cursor_moves {R : RandomSource} (n : Z) (g : rng R) :
  0 < n ->
  cursor_up (R := R) n g = ([Put (ESC ++ "[" ++ Py.str_of_int n ++ "A")], Ok (tt, g))
  /\ cursor_down (R := R) n g
     = ([Put (ESC ++ "[" ++ Py.str_of_int n ++ "B")], Ok (tt, g))
  /\ cursor_right (R := R) n g
     = ([Put (ESC ++ "[" ++ Py.str_of_int n ++ "C")], Ok (tt, g)).
Proof.
  intros Hn. unfold cursor_up, cursor_down, cursor_right.
  replace (0 <? n) with true by lia. now repeat split.
Qed.

Section DayTrace.

Context {R : RandomSource}.

Variable a : args.
Variable grid : list string.
Variable C : Z.
Variable beginning : datetime.

Hypothesis grid_rows : List.length grid = 7%nat.
Hypothesis grid_cols : forall row, In row grid -> Py.len row = C.
Hypothesis beginning_range : 0 < ordinal beginning.
Hypothesis ending_range : ordinal beginning + (7 * C - 1) <= MAXORDINAL.

Lemma preview_block_run (y x : Z) (c : ascii) (g : rng R) :
  0 <= y < 7 ->
  let block :=
    when (R := R) (preview a)
      (emit (Put (String (ascii_of_nat 13) EmptyString)) ;;
       cursor_up (7 - y) ;;
       cursor_right x ;;
       emit (Put (String c EmptyString)) ;;
       cursor_down (7 - y)) in
  trace block g = (if preview a then preview_events y x c else [])
  /\ outcome block g = Ok (tt, g).
Proof.
  intros Hy block. subst block. destruct (preview a); [|now split].
  cbn [when].
  destruct (cursor_moves (R := R) (7 - y) g ltac:(lia)) as (Hup & Hdown & _).
  assert (Hright : cursor_right (R := R) x g
                   = ((if 0 <? x
                       then [Put (ESC ++ "[" ++ Py.str_of_int x ++ "C")] else []),
                      Ok (tt, g))).
  { unfold cursor_right. now destruct (0 <? x). }
  unfold preview_events.
  rewrite trace_bind_emit, outcome_bind_emit.
  rewrite trace_bind, outcome_bind. unfold trace at 1, outcome at 1 2.
  rewrite Hup. cbn [fst snd].
  rewrite trace_bind, outcome_bind. unfold trace at 1, outcome at 1 2.
  rewrite Hright. cbn [fst snd].
  rewrite trace_bind_emit, outcome_bind_emit.
  unfold trace, outcome. rewrite Hdown. cbn [fst snd].
  split; [|reflexivity].
  cbn [app]. destruct (0 <? x); reflexivity.
Qed.

Lemma day_steps (day : Z) :
  0 <= day < 7 * C ->
  exists row c,
    Py.index grid (day mod 7) = Ok row
    /\ Py.str_index row (day / 7) = Ok c
    /\ cell grid day = Ok c
    /\ add_days beginning day = Ok (shift beginning day)
    /\ 0 <= day mod 7 < 7.
Proof.
  intros Hday.
  destruct (cell_in_grid grid C day grid_rows grid_cols Hday)
    as [row [c [Hrow [Hc Hcell]]]].
  exists row, c. repeat split; auto.
  - apply add_days_in_range. lia.
  - apply Z.mod_pos_bound. lia.
  - apply Z.mod_pos_bound. lia.
Qed.

Lemma day_body_off (num_days day : Z) (g : rng R) :
  0 <= day < 7 * C -> is_on grid day = false ->
  day_body a grid beginning num_days day g
  = ([PrintProgress (shift beginning day) (progress (percent_of day num_days))],
     Ok (shift beginning day, g)).
Proof.
  intros Hday Hoff.
  destruct (day_steps day Hday) as [row [c [Hrow [Hc [Hcell [Hdate _]]]]]].
  unfold is_on in Hoff. rewrite Hcell in Hoff.
  apply negb_false_iff in Hoff.
  rewrite (run_pair (day_body a grid beginning num_days day) g).
  unfold day_body, coords. cbv beta iota zeta.
  rewrite Hrow, outcome_bind_lift_ok, trace_bind_lift_ok.
  rewrite Hc, outcome_bind_lift_ok, trace_bind_lift_ok.
  rewrite Hdate, outcome_bind_lift_ok, trace_bind_lift_ok.
  rewrite outcome_bind_emit, trace_bind_emit, Hoff.
  reflexivity.
Qed.

Lemma day_body_on (num_days day : Z) (c : ascii) (g : rng R) :
  0 <= day < 7 * C -> cell grid day = Ok c -> c <> "."%char ->
  0 < max_commits a - min_commits a + 1 ->
  let d := shift beginning day in
  let r := draw R (max_commits a - min_commits a + 1) g in
  day_body a grid beginning num_days day g
  = ((PrintProgress d (progress (percent_of day num_days))
      :: (if dry_run a then [Sleep]
          else repeat (GitCommit d) (Z.to_nat (min_commits a + fst r)))
      ++ (if preview a then preview_events (day mod 7) (day / 7) c else []))%list,
     Ok (d, if dry_run a then g else snd r)).
Proof.
  intros Hday Hcell Hon Hdiff d r.
  destruct (day_steps day Hday) as [row [c' [Hrow [Hc [Hcell' [Hdate Hy]]]]]].
  rewrite Hcell in Hcell'. injection Hcell' as <-.
  assert (Hdot : Ascii.eqb c "." = false) by now apply Ascii.eqb_neq.
  rewrite (run_pair (day_body a grid beginning num_days day) g).
  unfold day_body, coords. cbv beta iota zeta.
  rewrite Hrow, outcome_bind_lift_ok, trace_bind_lift_ok.
  rewrite Hc, outcome_bind_lift_ok, trace_bind_lift_ok.
  rewrite Hdate, outcome_bind_lift_ok, trace_bind_lift_ok.
  rewrite outcome_bind_emit, trace_bind_emit, Hdot.
  rewrite outcome_bind, trace_bind.
  fold d.
  destruct (dry_run a); cbn [negb].
  - cbn [outcome trace emit fst snd].
    rewrite outcome_bind, trace_bind.
    destruct (preview_block_run (day mod 7) (day / 7) c g Hy) as [Ht Ho].
    cbv zeta in Ht, Ho. rewrite Ht, Ho. cbn [trace outcome ret fst snd].
    now rewrite app_nil_r.
  - destruct (bind_randrange (max_commits a - min_commits a + 1)
                (fun r => repeat_prog (Z.to_nat (min_commits a + r))
                            (emit (GitCommit d))) g Hdiff) as [Ho Ht].
    rewrite Ho, Ht, outcome_repeat_emit, trace_repeat_emit. fold r.
    rewrite outcome_bind, trace_bind.
    destruct (preview_block_run (day mod 7) (day / 7) c (snd r) Hy) as [Ht' Ho'].
    cbv zeta in Ht', Ho'. rewrite Ht', Ho'. cbn [trace outcome ret fst snd].
    now rewrite app_nil_r.
Qed.

End DayTrace.

(** X13: a day whose cell is off only prints its progress line: no commit,
    no sleep, no draw from the generator and, even with the preview on,
    nothing drawn in the preview. *)
Theorem off_day_only_progress (R : RandomSource) (a : args) (g : rng R)
    (message : Py.ustr) (inv : bool) (grid : list string) (beginning : datetime)
    (num_days day : Z) :
  Forall printable message ->
  build_grid get_font message inv = Ok grid ->
  0 < ordinal beginning ->
  ordinal beginning + (7 * grid_width message - 1) <= MAXORDINAL ->
  0 <= day < 7 * grid_width message ->
  is_on grid day = false ->
  day_body a grid beginning num_days day g
  = ([PrintProgress (shift beginning day) (progress (percent_of day num_days))],
     Ok (shift beginning day, g)).
Proof.
  intros Hp Hg Hb He Hday Hoff.
  destruct (build_grid_ok get_font font_length font_glyphs_ok message inv Hp)
    as [grid' [Hg' [H7 Hall]]].
  rewrite Hg in Hg'. injection Hg' as <-.
  rewrite Forall_forall in Hall. fold (grid_width message) in Hall.
  eapply day_body_off; eauto.
Qed.

Lemma off_day_only_progress_witness :
  day_body (R := cycle_source) (args_of 30 35 false [33])
    ["..."; ".#."; ".#."; ".#."; "..."; ".#."; "..."]
    (of_ymd 2023 1 1 12 0 0) 21 11 0%nat
  = ([PrintProgress (shift (of_ymd 2023 1 1 12 0 0) 11) (progress (percent_of 11 21))],
     Ok (shift (of_ymd 2023 1 1 12 0 0) 11, 0%nat)).
Proof.
  apply (off_day_only_progress cycle_source (args_of 30 35 false [33]) 0%nat
           [33] false).
  - repeat constructor; unfold ASCII_PRINTABLE_LAST, ASCII_PRINTABLE_FIRST; lia.
  - vm_compute. reflexivity.
  - vm_compute. reflexivity.
  - vm_compute. discriminate.
  - vm_compute. split; [discriminate | reflexivity].
  - vm_compute. reflexivity.
Defined.

(** X14: a day whose cell is on prints its progress line, then sleeps once
    in a dry run or else creates [min_commits] plus one draw commits dated
    that day, and then, with the preview on, draws the cell: the cursor goes
    up by 7 minus the row, which is at least 1, right by the column unless
    the column is 0, the character of the cell is written, and the cursor
    goes down by exactly as much as it went up. *)
Theorem on_day_trace (R : RandomSource) (a : args) (g : rng R)
    (message : Py.ustr) (inv : bool) (grid : list string) (beginning : datetime)
    (num_days day : Z) (c : ascii) :
  Forall printable message ->
  build_grid get_font message inv = Ok grid ->
  bounds_ok a ->
  0 < ordinal beginning ->
  ordinal beginning + (7 * grid_width message - 1) <= MAXORDINAL ->
  0 <= day < 7 * grid_width message ->
  cell grid day = Ok c -> c <> "."%char ->
  let d := shift beginning day in
  let r := draw R (max_commits a - min_commits a + 1) g in
  day_body a grid beginning num_days day g
  = ((PrintProgress d (progress (percent_of day num_days))
      :: (if dry_run a then [Sleep]
          else repeat (GitCommit d) (Z.to_nat (min_commits a + fst r)))
      ++ (if preview a then preview_events (day mod 7) (day / 7) c else []))%list,
     Ok (d, if dry_run a then g else snd r)).
Proof.
  intros Hp Hg (Hmin & Hmax & Hle) Hb He Hday Hcell Hon.
  destruct (build_grid_ok get_font font_length font_glyphs_ok message inv Hp)
    as [grid' [Hg' [H7 Hall]]].
  rewrite Hg in Hg'. injection Hg' as <-.
  rewrite Forall_forall in Hall. fold (grid_width message) in Hall.
  eapply day_body_on; eauto. lia.
Qed.

Lemma on_day_trace_witness :
  day_body (R := low_source) args_preview
    ["..."; ".#."; ".#."; ".#."; "..."; ".#."; "..."]
    (of_ymd 2023 1 1 12 0 0) 21 12 tt
  = ([PrintProgress (shift (of_ymd 2023 1 1 12 0 0) 12) (progress (percent_of 12 21));
      GitCommit (shift (of_ymd 2023 1 1 12 0 0) 12);
      GitCommit (shift (of_ymd 2023 1 1 12 0 0) 12);
      Put (String (ascii_of_nat 13) "");
      Put (ESC ++ "[2A"); Put (ESC ++ "[1C"); Put "#"; Put (ESC ++ "[2B")],
     Ok (shift (of_ymd 2023 1 1 12 0 0) 12, tt)).
Proof.
  apply (on_day_trace low_source args_preview tt [33] false
           ["..."; ".#."; ".#."; ".#."; "..."; ".#."; "..."]
           (of_ymd 2023 1 1 12 0 0) 21 12 "#"%char).
  - repeat constructor; unfold ASCII_PRINTABLE_LAST, ASCII_PRINTABLE_FIRST; lia.
  - vm_compute. reflexivity.
  - unfold bounds_ok; cbn; lia.
  - vm_compute. reflexivity.
  - vm_compute. discriminate.
  - vm_compute. split; [discriminate | reflexivity].
  - vm_compute. reflexivity.
  - discriminate.
Defined.

(** ** The first and the last lines of a run *)

Lemma last_nonempty {A : Type} (l : list A) (d d' : A) :
  l <> [] -> last l d = last l d'.
Proof.
  induction l as [|x l IH]; [congruence|]. intros _.
  destruct l as [|y l]; [reflexivity|].
  change (last (x :: y :: l) d) with (last (y :: l) d).
  change (last (x :: y :: l) d') with (last (y :: l) d').
  apply IH. discriminate.
Qed.

Lemma last_range (f : Z -> option datetime) (n : Z) :
  1 <= n -> last (map f (Py.range n)) None = f (n - 1).
Proof.
  intros Hn. unfold Py.range.
  replace (Z.to_nat n) with (S (Z.to_nat (n - 1))) by lia.
  rewrite seq_S, !map_app. cbn [map]. rewrite last_last.
  f_equal. cbn [Nat.add]. lia.
Qed.

Lemma progress_full : progress (inject_Z 100) = "[=========================] 100%".
Proof. vm_compute. reflexivity. Qed.

Section LastDay.

Context {R : RandomSource}.

Variable a : args.
Variable grid : list string.
Variable C : Z.
Variable beginning : datetime.

Hypothesis grid_rows : List.length grid = 7%nat.
Hypothesis grid_cols : forall row, In row grid -> Py.len row = C.
Hypothesis bounds : bounds_ok a.
Hypothesis beginning_range : 0 < ordinal beginning.
Hypothesis ending_range : ordinal beginning + (7 * C - 1) <= MAXORDINAL.

(** The loop leaves in [the_date] the date of the last day it went through. *)
Lemma for_days_last (days : list Z) :
  (forall day, In day days -> 0 <= day < 7 * C) ->
  forall (the_date : option datetime) (g : rng R),
  exists g',
    outcome (for_days (day_body a grid beginning (7 * C)) days the_date) g
    = Ok (last (map (fun d => Some (shift beginning d)) days) the_date, g').
Proof.
  induction days as [|day rest IH]; intros Hin the_date g.
  - exists g. reflexivity.
  - assert (Hday : 0 <= day < 7 * C) by (apply Hin; now left).
    destruct (day_body_run a grid C beginning grid_rows grid_cols bounds
                beginning_range ending_range day g Hday) as [Ho _].
    cbn [for_days]. rewrite outcome_bind, Ho.
    match goal with
    | |- context [outcome _ ?g1] =>
        destruct (IH (fun d Hd => Hin d (or_intror Hd))
                    (Some (shift beginning day)) g1) as [g' Hg']
    end.
    exists g'. rewrite Hg'. f_equal. f_equal.
    destruct rest as [|r rest']; [reflexivity|].
    cbn [map].
    transitivity (last (Some (shift beginning r)
                        :: map (fun d => Some (shift beginning d)) rest') the_date);
      [apply last_nonempty; discriminate | reflexivity].
Qed.

End LastDay.

(** X15: a run that passes the checks, with a window that fits the
    calendar, prints the beginning, a Sunday, and the end, the Saturday
    [7 * width - 1] days later; then, with the preview on, seven empty
    lines; then the lines of the days; and last a progress line with the
    date of the end and the full bar at 100 percent. *)
Theorem run_frame (R : RandomSource) (a : args) (g : rng R) (s : datetime) :
  message_of a <> [] -> Forall printable (message_of a) -> bounds_ok a ->
  start a = Some s -> 7 <= ordinal s ->
  ordinal s + 7 * grid_width (message_of a) - 1 <= MAXORDINAL ->
  exists beginning days_output,
    let ending := shift beginning (7 * grid_width (message_of a) - 1) in
    window_beginning s = Ok beginning
    /\ weekday beginning = SUNDAY
    /\ weekday ending = 5
    /\ fst (run R a g)
       = ([PrintStarting beginning; PrintEnding ending]
          ++ (if preview a then repeat (Print "") 7 else [])
          ++ days_output
          ++ [PrintProgress ending "[=========================] 100%"])%list.
Proof.
  intros Hm Hp Hb Hs Hs7 Hfit.
  pose proof Hb as (Hmin & Hmax & Hle).
  destruct (build_grid_ok get_font font_length font_glyphs_ok
              (message_of a) (invert a) Hp) as [grid [Hg [H7 Hall]]].
  rewrite Forall_forall in Hall. fold (grid_width (message_of a)) in Hall.
  pose proof (grid_width_pos (message_of a)) as HC.
  set (C := grid_width (message_of a)) in *.
  pose proof (num_days_of_grid grid C H7 Hall) as Hn.
  destruct (window_beginning_spec s) as [b [Eb _]];
    [unfold MAXORDINAL in *; lia|].
  destruct (window_beginning_inv s b Eb) as (Hw & _ & _ & _ & _ & _ & Hord & Hbr).
  assert (Ee : add_days b (7 * C - 1) = Ok (shift b (7 * C - 1)))
    by (apply add_days_in_range; lia).
  exists b, (trace (for_days (day_body a grid b (7 * C)) (Py.range (7 * C)) None) g).
  cbv zeta. split; [exact Eb|]. split; [exact Hw|]. split.
  { unfold weekday, SUNDAY in *. cbn [shift ordinal].
    pose proof (Z.div_mod (ordinal b + 6) 7).
    pose proof (Z.div_mod (ordinal b + (7 * C - 1) + 6) 7).
    pose proof (Z.mod_pos_bound (ordinal b + (7 * C - 1) + 6) 7).
    lia. }
  unfold run. change (fst (main a g)) with (trace (main a) g).
  pass_checks a Hm Hmin Hmax Hle Hp.
  rewrite Hg, trace_bind_lift_ok.
  rewrite Hn, trace_bind_lift_ok.
  rewrite Hs, trace_bind_lift_ok.
  rewrite Eb, trace_bind_lift_ok.
  rewrite Ee, trace_bind_lift_ok.
  rewrite !trace_bind_emit. cbn [app]. do 2 f_equal.
  rewrite trace_bind. f_equal.
  { rewrite H7. destruct (preview a); [apply trace_repeat_emit | reflexivity]. }
  assert (Hblock : outcome (when (R := R) (preview a)
                              (repeat_prog (List.length grid) (emit (Print "")))) g
                   = Ok (tt, g)).
  { destruct (preview a); [apply outcome_repeat_emit | reflexivity]. }
  rewrite Hblock, trace_bind. f_equal.
  destruct (for_days_last (R := R) a grid C b H7 Hall Hb ltac:(lia) ltac:(lia)
              (Py.range (7 * C)) (fun d Hd => proj1 (in_range (7 * C) d) Hd)
              None g) as [g' Ho].
  rewrite Ho, last_range by lia.
  cbn [trace emit fst]. now rewrite progress_full.
Qed.

Lemma run_frame_witness :
  exists days_output,
    fst (run cycle_source args_preview 0%nat)
    = ([PrintStarting (of_ymd 2023 1 1 12 0 0);
        PrintEnding (shift (of_ymd 2023 1 1 12 0 0) 20)]
       ++ repeat (Print "") 7
       ++ days_output
       ++ [PrintProgress (shift (of_ymd 2023 1 1 12 0 0) 20)
             "[=========================] 100%"])%list.
Proof.
  assert (Hp : Forall printable (message_of args_preview)).
  { repeat constructor; unfold ASCII_PRINTABLE_LAST, ASCII_PRINTABLE_FIRST; lia. }
  assert (Hb : bounds_ok args_preview) by (unfold bounds_ok; cbn; lia).
  assert (Hm : message_of args_preview <> []) by discriminate.
  assert (H7 : 7 <= ordinal (of_ymd 2023 1 1 0 0 0)) by (vm_compute; discriminate).
  assert (Hfit : ordinal (of_ymd 2023 1 1 0 0 0)
                 + 7 * grid_width (message_of args_preview) - 1 <= MAXORDINAL)
    by (vm_compute; discriminate).
  destruct (run_frame cycle_source args_preview 0%nat (of_ymd 2023 1 1 0 0 0)
              Hm Hp Hb eq_refl H7 Hfit) as [b [out H]].
  cbv zeta in H. destruct H as [Eb [_ [_ Ht]]].
  assert (E : b = of_ymd 2023 1 1 12 0 0).
  { vm_compute in Eb. injection Eb as <-. reflexivity. }
  subst b. exists out. exact Ht.
Defined.

(** ** Equal bounds *)

Lemma draw_counts_fixed (R : RandomSource) (a : args) (k : nat) (g : rng R) :
  min_commits a = max_commits a ->
  fst (draw_counts R a k g) = repeat (min_commits a) k.
Proof.
  intros E. revert g. induction k as [|k IH]; intros g; [reflexivity|].
  destruct (draw_counts_succ R a k g) as [-> _]. cbn [repeat].
  rewrite IH. f_equal.
  pose proof (draw_range R (max_commits a - min_commits a + 1) g ltac:(lia)).
  lia.
Qed.

(** X16: when the two bounds are equal the draws have no influence: a run
    that passes the checks and is not a dry run creates exactly that number
    of commits on every day that is on, whatever the generator. *)
Theorem equal_bounds_fixed_counts (R : RandomSource) (a : args) (g : rng R)
    (s : datetime) :
  message_of a <> [] -> Forall printable (message_of a) -> bounds_ok a ->
  start a = Some s -> dry_run a = false ->
  min_commits a = max_commits a ->
  let days := on_days (message_of a) (invert a) s in
  commit_dates (fst (run R a g))
  = expand days (repeat (min_commits a) (List.length days)).
Proof.
  intros Hm Hp Hb Hs Hdry E days.
  destruct (run_valid R a g s Hm Hp Hb Hs) as [-> _]. rewrite Hdry.
  fold days. now rewrite draw_counts_fixed.
Qed.

Lemma equal_bounds_fixed_counts_witness :
  commit_dates (fst (run cycle_source args_preview 7%nat))
  = expand (on_days [33] false (of_ymd 2023 1 1 0 0 0)) (repeat 2 4)
  /\ commit_dates (fst (run high_source args_preview tt))
     = expand (on_days [33] false (of_ymd 2023 1 1 0 0 0)) (repeat 2 4).
Proof.
  assert (Hp : Forall printable (message_of args_preview)).
  { repeat constructor; unfold ASCII_PRINTABLE_LAST, ASCII_PRINTABLE_FIRST; lia. }
  assert (Hb : bounds_ok args_preview) by (unfold bounds_ok; cbn; lia).
  assert (Hm : message_of args_preview <> []) by discriminate.
  assert (Hk : List.length (on_days (message_of args_preview) (invert args_preview)
                              (of_ymd 2023 1 1 0 0 0)) = 4%nat)
    by (vm_compute; reflexivity).
  pose proof (equal_bounds_fixed_counts cycle_source args_preview 7%nat
                (of_ymd 2023 1 1 0 0 0) Hm Hp Hb eq_refl eq_refl eq_refl) as H1.
  pose proof (equal_bounds_fixed_counts high_source args_preview tt
                (of_ymd 2023 1 1 0 0 0) Hm Hp Hb eq_refl eq_refl eq_refl) as H2.
  cbv zeta in H1, H2. rewrite Hk in H1, H2.
  exact (conj H1 H2).
Defined.
